(** * Credential resolution and secure ingestion of the Stripe CLI fork

    A shallow embedding of the Go sources

      - [pkg/cmd/dotenv.go]          ([loadDotenvFromFlags]),
      - [pkg/cmd/whoami.go]          ([whoamiOutput], [newWhoamiCmd]),
      - [pkg/login/api_key_login.go] ([LoginWithAPIKey]),

    together with the parts of [pkg/config] that these call.  Go strings are
    byte strings and are modelled by [string]; a Go pair [(v, err)] is a
    pair whose second component is [option error] ([None] is [nil]); the
    process environment and parsed key/value files are finite maps. *)

From Stdlib Require Import ZArith NArith String Ascii List Bool Lia.
From stdpp Require Import gmap strings list.

(** Go's [error] values are observed only through their message. *)
Definition error := string.

(** The one-character string of a line feed. *)
Definition newline : string := String "010" EmptyString.

(* ===================================================================== *)
(** * Package [cmd], file [dotenv.go]                                      *)
(* ===================================================================== *)

Module dotenv.

(** ** The operating-system interface used by the loader *)

(** What a path denotes.  A regular file carries its [os.FileMode] (a
    [uint32], kept as [N]) and the outcome of [godotenv.Read] on it: the
    parsed key/value map, or the error of an unreadable or malformed file.
    A path that is present but cannot be stat'ed carries the error. *)
Inductive FileNode :=
| RegularFile (mode : N) (content : gmap string string + error)
| Inaccessible (err : error).

Inductive StatError :=
| ErrNotExist
| ErrOther (msg : error).

Definition os_IsNotExist (e : StatError) : bool :=
  match e with ErrNotExist => true | ErrOther _ => false end.

Definition StatError_Error (e : StatError) : string :=
  match e with
  | ErrNotExist => "no such file or directory"
  | ErrOther msg => msg
  end.

(** [os.Stat(path)]: the file mode, or an error. *)
Definition os_Stat (fs : gmap string FileNode) (path : string) : N + StatError :=
  match fs !! path with
  | None => inr ErrNotExist
  | Some (RegularFile mode _) => inl mode
  | Some (Inaccessible err) => inr (ErrOther err)
  end.

(** [godotenv.Read(path)]: the parsed map, or an error. *)
Definition godotenv_Read (fs : gmap string FileNode) (path : string)
  : gmap string string + error :=
  match fs !! path with
  | None => inr "no such file or directory"
  | Some (RegularFile _ content) => content
  | Some (Inaccessible err) => inr err
  end.

Fixpoint has_byte (c : ascii) (s : string) : bool :=
  match s with
  | EmptyString => false
  | String a s' => if Ascii.eqb a c then true else has_byte c s'
  end.

(** [os.Setenv(k, v)] fails with EINVAL, leaving the environment as it is,
    on an empty key, a key holding ['='] or NUL, or a value holding NUL. *)
Definition os_Setenv (k v : string) (env : gmap string string)
  : option error * gmap string string :=
  if String.eqb k "" || has_byte "=" k || has_byte "000" k || has_byte "000" v
  then (Some "setenv: invalid argument", env)
  else (None, <[k := v]> env).

(** [os.LookupEnv(k)]. *)
Definition os_LookupEnv (k : string) (env : gmap string string) : string * bool :=
  match env !! k with
  | Some v => (v, true)
  | None => ("", false)
  end.

(** ** Logging and the process state *)

Inductive Level := WarnLevel | DebugLevel.

Record LogEntry := {
  level : Level;
  fields : list (string * string);
  message : string
}.

Definition octal_digits (ds : list N) : string :=
  fold_right (fun d s => String (ascii_of_N (48 + d)) s) "" ds.

(** [fmt.Sprintf("%#o", p)] for a permission word [p < 0o1000]. *)
Definition Sprintf_sharp_o (p : N) : string :=
  let d2 := (p / 64)%N in
  let d1 := ((p / 8) mod 8)%N in
  let d0 := (p mod 8)%N in
  if (p =? 0)%N then "0"
  else "0" +:+ (if (d2 =? 0)%N
                then (if (d1 =? 0)%N then octal_digits [d0]
                      else octal_digits [d1; d0])
                else octal_digits [d2; d1; d0]).

(** [FileMode.Perm()]: the low nine bits. *)
Definition Perm (mode : N) : N := N.land mode 511.

Record World := {
  fs : gmap string FileNode;
  environ : gmap string string;
  logs : list LogEntry;
  stdout : list string
}.

Definition log_entry (e : LogEntry) (w : World) : World :=
  {| fs := fs w; environ := environ w; logs := (logs w ++ [e])%list; stdout := stdout w |}.

Definition print (s : string) (w : World) : World :=
  {| fs := fs w; environ := environ w; logs := logs w; stdout := (stdout w ++ [s])%list |}.

Definition set_environ (env : gmap string string) (w : World) : World :=
  {| fs := fs w; environ := env; logs := logs w; stdout := stdout w |}.

(** The function either returns or panics with an error. *)
Inductive Outcome :=
| Returned
| Panicked (err : error).

(** ** [loadDotenvFromFlags] *)

Definition allowlist : list string :=
  ["STRIPE_SECRET_KEY"; "STRIPE_DEVICE_NAME"].

(** Lines 13-27: which file, and whether the user asked for it. *)
Definition choose_path (envFile : string) (dotenv : bool) : string * bool :=
  if negb (String.eqb envFile "") then (envFile, true)
  else if dotenv then (".env", true)
  else (".env", false).

(** One turn of the loop of lines 83-90. *)
Definition import_var (env : gmap string string) (penv : gmap string string)
    (k : string) : gmap string string :=
  match env !! k with
  | Some v =>
      if snd (os_LookupEnv k penv) then penv
      else snd (os_Setenv k v penv)
  | None => penv
  end.

Definition import_allowlisted (env penv : gmap string string) : gmap string string :=
  fold_left (import_var env) allowlist penv.

Definition permissive_warning : string :=
  "Skipping .env file: file permissions are too permissive (world-readable). Run 'chmod 600 .env' to fix this.".

(** [envFile] and [dotenv] are the package-level flag variables. *)
Definition loadDotenvFromFlags (envFile : string) (dotenv : bool) (w : World)
  : Outcome * World :=
  let '(path, explicitlyRequested) := choose_path envFile dotenv in
  match os_Stat (fs w) path with
  | inr err =>
      if os_IsNotExist err then
        if explicitlyRequested
        then (Panicked ("failed to load " +:+ path +:+ ": file not found"), w)
        else (Returned, w)
      else if explicitlyRequested
      then (Panicked ("failed to stat " +:+ path +:+ ": " +:+ StatError_Error err), w)
      else (Returned, w)
  | inl mode =>
      if negb (N.land mode 4 =? 0)%N then
        let w1 :=
          log_entry {| level := WarnLevel;
                       fields := [("prefix", "cmd.loadDotenvFromFlags");
                                  ("path", path);
                                  ("mode", Sprintf_sharp_o (Perm mode))];
                       message := permissive_warning |} w in
        if explicitlyRequested
        then (Panicked (".env file has insecure permissions (world-readable): "
                        +:+ path +:+ ". Run 'chmod 600 " +:+ path
                        +:+ "' to fix this"), w1)
        else (Returned, w1)
      else
        match godotenv_Read (fs w) path with
        | inr err => (Panicked ("failed to load " +:+ path +:+ ": " +:+ err), w)
        | inl env =>
            let w1 :=
              log_entry {| level := DebugLevel;
                           fields := [("prefix", "cmd.loadDotenvFromFlags");
                                      ("path", path)];
                           message := "Loaded environment variables from .env file" |} w in
            let w2 :=
              if dotenv
              then print ("Loaded environment variables from " +:+ path +:+ newline) w1
              else w1 in
            (Returned, set_environ (import_allowlisted env (environ w2)) w2)
        end
  end.

(** The decision table of the specification reads the flags directly:
    ingestion is requested explicitly when a path was given or the
    [--dotenv] flag was set, and the file is the given path, else [.env]. *)
Definition explicit_request (envFile : string) (dotenv : bool) : bool :=
  negb (String.eqb envFile "") || dotenv.

Definition requested_file (envFile : string) : string :=
  if String.eqb envFile "" then ".env" else envFile.

(** World-readable: the "others" read bit, bit 2 of the mode (0004). *)
Definition world_readable (mode : N) : bool := N.testbit mode 2.

End dotenv.


(* ===================================================================== *)
(** * Package [config]                                                     *)
(* ===================================================================== *)

(** The sources of [pkg/config] are not part of the slice: the record of a
    profile follows the data model of the specification, with the field
    names the callers in [pkg/login] and [pkg/cmd] use where they show them
    ([ProfileName] is the spec's [ProjectName], [TestModeAPIKey] its
    [SandboxKey]). *)

Module config.

Inductive ColorPreference := ColorAuto | ColorAlways | ColorNever.

(** A calendar date, without time of day. *)
Record Date := { year : N; month : N; day : N }.

(** Modelled from the spec: the Profile of section 3 (the declaration of
    [config.Profile] is missing).  [ProductionKey] is the key of the
    production tier as held in memory; [ColorPref] is the spec's
    [ColorPreference]. *)
Record Profile := {
  ProfileName : string;
  AccountID : string;
  DisplayName : string;
  DeviceName : string;
  TestModeAPIKey : string;
  ProductionKey : string;
  SandboxKeyExpiresAt : option Date;
  ProductionKeyExpiresAt : option Date;
  ColorPref : ColorPreference
}.

Definition set_DeviceName (v : string) (p : Profile) : Profile :=
  {| ProfileName := ProfileName p; AccountID := AccountID p;
     DisplayName := DisplayName p; DeviceName := v;
     TestModeAPIKey := TestModeAPIKey p; ProductionKey := ProductionKey p;
     SandboxKeyExpiresAt := SandboxKeyExpiresAt p;
     ProductionKeyExpiresAt := ProductionKeyExpiresAt p;
     ColorPref := ColorPref p |}.

Definition set_TestModeAPIKey (v : string) (p : Profile) : Profile :=
  {| ProfileName := ProfileName p; AccountID := AccountID p;
     DisplayName := DisplayName p; DeviceName := DeviceName p;
     TestModeAPIKey := v; ProductionKey := ProductionKey p;
     SandboxKeyExpiresAt := SandboxKeyExpiresAt p;
     ProductionKeyExpiresAt := ProductionKeyExpiresAt p;
     ColorPref := ColorPref p |}.

Definition set_DisplayName (v : string) (p : Profile) : Profile :=
  {| ProfileName := ProfileName p; AccountID := AccountID p;
     DisplayName := v; DeviceName := DeviceName p;
     TestModeAPIKey := TestModeAPIKey p; ProductionKey := ProductionKey p;
     SandboxKeyExpiresAt := SandboxKeyExpiresAt p;
     ProductionKeyExpiresAt := ProductionKeyExpiresAt p;
     ColorPref := ColorPref p |}.

Definition set_ProductionKey (v : string) (p : Profile) : Profile :=
  {| ProfileName := ProfileName p; AccountID := AccountID p;
     DisplayName := DisplayName p; DeviceName := DeviceName p;
     TestModeAPIKey := TestModeAPIKey p; ProductionKey := v;
     SandboxKeyExpiresAt := SandboxKeyExpiresAt p;
     ProductionKeyExpiresAt := ProductionKeyExpiresAt p;
     ColorPref := ColorPref p |}.

(** [config.Config], with the fields the test of the login flow sets. *)
Record Config := {
  Color : string;
  LogLevel : string;
  Profile_ : Profile;
  ProfilesFile : string
}.

Definition set_Profile (p : Profile) (c : Config) : Config :=
  {| Color := Color c; LogLevel := LogLevel c; Profile_ := p;
     ProfilesFile := ProfilesFile c |}.

(** ** The plaintext profile file *)

(** One named section per profile, each a list of [field = value] lines. *)
Definition Block := list (string * string).

(** Modelled from the spec: the plaintext profile file of section 6, with
    its permission bits (the file format of [pkg/config] is missing). *)
Record PlainFile := {
  perm : N;
  blocks : list (string * Block)
}.

(** The files below the configuration directory, and whether it accepts
    writes. *)
Record Disk := {
  writable : bool;
  files : gmap string PlainFile
}.

Definition digit (n : N) : ascii := ascii_of_N (48 + n mod 10).

Definition pad2 (n : N) : string :=
  String (digit (n / 10)) (String (digit n) EmptyString).

Definition pad4 (n : N) : string :=
  String (digit (n / 1000)) (String (digit (n / 100)) (pad2 n)).

(** A date in the [YYYY-MM-DD] form of the file. *)
Definition format_date (d : Date) : string :=
  pad4 (year d) +:+ "-" +:+ pad2 (month d) +:+ "-" +:+ pad2 (day d).

Definition string_field (k v : string) : Block :=
  if String.eqb v "" then [] else [(k, v)].

Definition date_field (k : string) (d : option Date) : Block :=
  match d with
  | Some d => [(k, format_date d)]
  | None => []
  end.

(** Modelled from the spec: the serialization of a profile by
    [ProfileStore.CreateProfile] ([pkg/config/profile.go] is missing).  The
    fields are those section 6 lists for the plaintext profile file, each
    written when the profile has it; [ProductionKey] is silently omitted. *)
Definition serialize (p : Profile) : Block :=
  (string_field "account_id" (AccountID p)
   ++ string_field "display_name" (DisplayName p)
   ++ string_field "test_mode_api_key" (TestModeAPIKey p)
   ++ date_field "test_mode_key_expires_at" (SandboxKeyExpiresAt p)
   ++ date_field "live_mode_key_expires_at" (ProductionKeyExpiresAt p))%list.

Fixpoint replace_block (name : string) (b : Block) (bs : list (string * Block))
  : list (string * Block) :=
  match bs with
  | [] => [(name, b)]
  | (n, b') :: rest =>
      if String.eqb n name then (name, b) :: rest
      else (n, b') :: replace_block name b rest
  end.

(** Modelled from the spec: [ProfileStore.CreateProfile(path, profile)]
    ([pkg/config/profile.go] is missing).  It fails before touching the
    file, or replaces the block of the profile's name and leaves the other
    blocks alone; a file it creates is owner-only (0600). *)
Definition CreateProfile (path : string) (p : Profile) (d : Disk)
  : option error * Disk :=
  if negb (writable d) then (Some ("cannot write " +:+ path), d)
  else
    let f :=
      match files d !! path with
      | Some f => {| perm := perm f;
                     blocks := replace_block (ProfileName p) (serialize p) (blocks f) |}
      | None => {| perm := 384; blocks := [(ProfileName p, serialize p)] |}
      end in
    (None, {| writable := writable d; files := <[path := f]> (files d) |}).










(** ** Secure store and credential resolution *)

Inductive Mode := Sandbox | Production.

(** Modelled from the spec: the SecureStore adapter of section 4.2
    ([pkg/config] is missing).  The platform store may have no backend; the
    substitute for tests is an in-memory collection of items. *)
Inductive SecureStore :=
| NoBackend
| Keyring (items : gmap string string).

(** Modelled from the spec: [SecureStore.Get] of section 4.2; a store
    without backend answers [found = false]. *)
Definition SecureStore_Get (s : SecureStore) (key : string) : string * bool :=
  match s with
  | NoBackend => ("", false)
  | Keyring items =>
      match items !! key with
      | Some v => (v, true)
      | None => ("", false)
      end
  end.

(** Modelled from the spec: [SecureStore.Set] of section 4.2. *)
Definition SecureStore_Set (s : SecureStore) (key value : string)
  : option error * SecureStore :=
  match s with
  | NoBackend => (Some "no keyring backend available", NoBackend)
  | Keyring items => (None, Keyring (<[key := value]> items))
  end.

Definition live_key_name (p : Profile) : string :=
  ProfileName p +:+ ".live_mode_api_key".

(** Modelled from the spec: [CredentialResolver.Resolve(profile, mode)] of
    section 4.1 ([Profile.GetAPIKey] of [pkg/config] is missing).
    [overrideVar] names the environment override of each mode. *)
Definition Resolve (overrideVar : Mode -> string) (env : gmap string string)
    (store : SecureStore) (p : Profile) (m : Mode) : string * bool :=
  let stored :=
    match m with
    | Production => SecureStore_Get store (live_key_name p)
    | Sandbox =>
        if String.eqb (TestModeAPIKey p) "" then ("", false)
        else (TestModeAPIKey p, true)
    end in
  match env !! overrideVar m with
  | Some v => if String.eqb v "" then stored else (v, true)
  | None => stored
  end.

End config.

(* ===================================================================== *)
(** * Package [login], file [api_key_login.go]                             *)
(* ===================================================================== *)

Module login.

Import config.

(** What [LoginWithAPIKey] calls outside its file: the standard library,
    the key validator of [pkg/validators] and the two requests to the
    remote service.  [getDisplayName] and [SuccessMessage] receive the base
    URL of the service and the key. *)
Class LoginEnv := {
  strings_TrimSpace : string -> string;
  validators_APIKey : string -> option error;
  os_Hostname : string * option error;
  getDisplayName : string -> string -> string * option error;
  SuccessMessage : string -> string -> string * option error
}.

(** [Profile.CreateProfile], over whatever holds the profile file. *)
Class ProfileStore (Store : Type) := {
  Profile_CreateProfile : Profile -> Store -> option error * Store
}.

(** The configuration behind the pointer [cfg], the profile store and what
    was printed. *)
Record State (Store : Type) := {
  cfg : Config;
  store : Store;
  stdout : list string
}.

Arguments cfg {Store} _.
Arguments store {Store} _.
Arguments stdout {Store} _.

Section LoginWithAPIKey.

Context `{E : LoginEnv} {Store : Type} `{S : ProfileStore Store}.

(** Lines 23-30: a device name even if the caller set none. *)
Definition ensure_device_name (p : Profile) : Profile :=
  if String.eqb (strings_TrimSpace (DeviceName p)) "" then
    let '(hostName, err) := os_Hostname in
    let hostName := match err with Some _ => "unknown" | None => hostName end in
    set_DeviceName hostName p
  else p.

(** Lines 32-37: the profile handed to [CreateProfile]; [apiKey] is the
    trimmed key. *)
Definition updated_profile (apiBaseURL apiKey : string) (p : Profile) : Profile :=
  let p := ensure_device_name p in
  let p := set_TestModeAPIKey apiKey p in
  let displayName := fst (getDisplayName apiBaseURL apiKey) in
  set_DisplayName displayName p.

Definition LoginWithAPIKey (apiBaseURL : string) (apiKey : string)
    (st : State Store) : option error * State Store :=
  let apiKey := strings_TrimSpace apiKey in
  match validators_APIKey apiKey with
  | Some err => (Some err, st)
  | None =>
      let p := updated_profile apiBaseURL apiKey (Profile_ (cfg st)) in
      let cfg' := set_Profile p (cfg st) in
      match Profile_CreateProfile p (store st) with
      | (Some err, store') =>
          (Some err, {| cfg := cfg'; store := store'; stdout := stdout st |})
      | (None, store') =>
          match SuccessMessage apiBaseURL apiKey with
          | (_, Some err) =>
              (None,
               {| cfg := cfg'; store := store';
                  stdout := (stdout st ++
                    ["> Error verifying the CLI was setup successfully: "
                     +:+ err +:+ newline])%list |})
          | (message, None) =>
              (None,
               {| cfg := cfg'; store := store';
                  stdout := (stdout st ++ ["> " +:+ message +:+ newline])%list |})
          end
      end
  end.

End LoginWithAPIKey.

(** The plaintext profile file at [path] as the store of the login flow. *)
Definition PlaintextStore (path : string) : ProfileStore Disk :=
  {| Profile_CreateProfile := CreateProfile path |}.

(** The state of a login whose profile in memory has [k] as production
    key. *)
Definition with_production_key {Store : Type} (k : string) (st : State Store)
  : State Store :=
  {| cfg := set_Profile (set_ProductionKey k (Profile_ (cfg st))) (cfg st);
     store := store st; stdout := stdout st |}.

End login.

(* ===================================================================== *)
(** * Package [cmd], file [whoami.go]                                      *)
(* ===================================================================== *)

Module whoami.

Import config.

(** An instant, in nanoseconds since the zero [time.Time] (January 1 of
    year 1, UTC); a [time.Duration] is a number of nanoseconds.  The
    instants that [time.Parse] and [time.Now] return are far from the ends
    of the clock's range, where [Add] would saturate. *)
Definition Time := Z.

Definition Hour : Z := 3600 * 1000000000.

Definition Time_IsZero (t : Time) : bool := (t =? 0)%Z.
Definition Time_Add (t : Time) (d : Z) : Time := (t + d)%Z.
(** [t.After(u)]. *)
Definition Time_After (t u : Time) : bool := (u <? t)%Z.

(** The methods of [config.Config] and [config.Profile] the command calls,
    [config.RedactAPIKey] and the constant [config.DateStringFormat]. *)
Class ProfileAPI := {
  GetProfile : Config -> option Profile;
  GetDisplayName : Profile -> string;
  GetAccountID : Profile -> string * option error;
  GetDeviceName : Profile -> string * option error;
  GetColor : Profile -> string * option error;
  GetAPIKey : Profile -> bool -> string * option error;
  GetExpiresAt : Profile -> bool -> Time * option error;
  RedactAPIKey : string -> string;
  DateStringFormat : string
}.

(** [t.Format(layout)] and [time.Parse(layout, value)]. *)
Class TimeLib := {
  Time_Format : Time -> string -> string;
  time_Parse : string -> string -> Time * option error
}.

Record whoamiOutput := {
  ProjectName : string;
  AccountID : string;
  DisplayName : string;
  DeviceName : string;
  Color : string;
  HasTestKey : bool;
  HasLiveKey : bool;
  TestKeyExp : string;
  LiveKeyExp : string;
  TestAPIKey : string;
  LiveAPIKey : string;
  ProfilesFile : string
}.

(** A JSON object of strings and booleans, as a list of members; a string
    member holds the value a reader of the document gets. *)
Inductive jvalue :=
| JString (s : string)
| JBool (b : bool).

(** A chunk of the line-oriented output: a [label: value] line, or a line
    of free text. *)
Inductive text_line :=
| Field (label value : string)
| Note (msg : string).

Definition render_line (l : text_line) : string :=
  match l with
  | Field label value => label +:+ ": " +:+ value +:+ newline
  | Note msg => msg +:+ newline
  end.

Inductive Output :=
| JSONDocument (members : list (string * jvalue))
| TextLines (lines : list text_line).

(** The [%t] verb. *)
Definition fmt_bool (b : bool) : string := if b then "true" else "false".

Definition byte_in (lo hi : N) (c : ascii) : bool :=
  let n := N_of_ascii c in ((lo <=? n) && (n <=? hi))%N.

(** The table of [unicode/utf8] for a first byte above 0x7F: the length of
    the encoding it starts and the range of its second byte, or [None] for
    a byte that starts no encoding. *)
Definition utf8_first (n : N) : option (N * N * N) :=
  if ((194 <=? n) && (n <=? 223))%N then Some (2, 128, 191)%N
  else if (n =? 224)%N then Some (3, 160, 191)%N
  else if ((225 <=? n) && (n <=? 236))%N then Some (3, 128, 191)%N
  else if (n =? 237)%N then Some (3, 128, 159)%N
  else if ((238 <=? n) && (n <=? 239))%N then Some (3, 128, 191)%N
  else if (n =? 240)%N then Some (4, 144, 191)%N
  else if ((241 <=? n) && (n <=? 243))%N then Some (4, 128, 191)%N
  else if (n =? 244)%N then Some (4, 128, 143)%N
  else None.

(** The UTF-8 encoding of U+FFFD. *)
Definition replacement : string :=
  String "239" (String "191" (String "189" EmptyString)).

(** The value of a Go string as [encoding/json] writes it: the escapes it
    uses read back as the bytes they stand for, but every byte at which
    [utf8.DecodeRuneInString] finds no valid encoding is written as
    U+FFFD, and the scan resumes at the next byte. *)
Fixpoint json_string (s : string) : string :=
  match s with
  | EmptyString => EmptyString
  | String b0 rest =>
      if (N_of_ascii b0 <? 128)%N then String b0 (json_string rest)
      else
        match utf8_first (N_of_ascii b0) with
        | None => replacement +:+ json_string rest
        | Some (size, lo, hi) =>
            match rest with
            | String b1 rest1 =>
                if byte_in lo hi b1 then
                  if (size =? 2)%N then String b0 (String b1 (json_string rest1))
                  else
                    match rest1 with
                    | String b2 rest2 =>
                        if byte_in 128 191 b2 then
                          if (size =? 3)%N
                          then String b0 (String b1 (String b2 (json_string rest2)))
                          else
                            match rest2 with
                            | String b3 rest3 =>
                                if byte_in 128 191 b3
                                then String b0 (String b1 (String b2
                                       (String b3 (json_string rest3))))
                                else replacement +:+ json_string rest
                            | EmptyString => replacement +:+ json_string rest
                            end
                        else replacement +:+ json_string rest
                    | EmptyString => replacement +:+ json_string rest
                    end
                else replacement +:+ json_string rest
            | EmptyString => replacement +:+ json_string rest
            end
        end
  end.

(** A member tagged [omitempty]: left out when the Go string is empty. *)
Definition omitempty (k v : string) : list (string * jvalue) :=
  if String.eqb v "" then [] else [(k, JString (json_string v))].

(** [json.MarshalIndent] on a [whoamiOutput]: the members in the order of
    the struct, by their tags, each string as [encoding/json] writes it.
    It cannot fail on strings and booleans. *)
Definition json_Marshal (out : whoamiOutput) : list (string * jvalue) :=
  ([("project_name", JString (json_string (ProjectName out)))]
   ++ omitempty "account_id" (AccountID out)
   ++ omitempty "display_name" (DisplayName out)
   ++ omitempty "device_name" (DeviceName out)
   ++ omitempty "color" (Color out)
   ++ [("has_test_mode_api_key", JBool (HasTestKey out));
       ("has_live_mode_api_key", JBool (HasLiveKey out))]
   ++ omitempty "test_mode_key_expires_at" (TestKeyExp out)
   ++ omitempty "live_mode_key_expires_at" (LiveKeyExp out)
   ++ omitempty "test_mode_api_key" (TestAPIKey out)
   ++ omitempty "live_mode_api_key" (LiveAPIKey out)
   ++ omitempty "profiles_file" (ProfilesFile out))%list.

(** The staleness test of lines 140-147, on the parsed expiry: [None] is a
    key without a recorded expiry date. *)
Definition IsStale (expiresAt : option Time) (now : Time) : bool :=
  match expiresAt with
  | Some exp => Time_After now (Time_Add exp (24 * Hour))
  | None => false
  end.

Definition expiry_warning : string :=
  "warning: test_mode_api_key appears expired (re-login may be required)".

Section RunE.

Context `{A : ProfileAPI} `{T : TimeLib}.

(** The value of a getter when it reports no error, else the zero value
    the field of [out] starts with. *)
Definition or_empty (r : string * option error) : string :=
  match r with
  | (v, None) => v
  | (_, Some _) => ""
  end.

Definition has_key (r : string * option error) : bool :=
  match r with
  | (k, None) => negb (String.eqb k "")
  | (_, Some _) => false
  end.

Definition expiry_string (r : Time * option error) : string :=
  match r with
  | (t, None) => if negb (Time_IsZero t) then Time_Format t DateStringFormat else ""
  | (_, Some _) => ""
  end.

(** Lines 50-93: the record the command prints. *)
Definition build_output (Config : config.Config) (p : Profile)
    (project_name : string) (showKeys : bool) : whoamiOutput :=
  let testKey := GetAPIKey p false in
  let liveKey := GetAPIKey p true in
  let hasTest := has_key testKey in
  let hasLive := has_key liveKey in
  {| ProjectName := project_name;
     DisplayName := GetDisplayName p;
     ProfilesFile := config.ProfilesFile Config;
     AccountID := or_empty (GetAccountID p);
     DeviceName := or_empty (GetDeviceName p);
     Color := or_empty (GetColor p);
     HasTestKey := hasTest;
     HasLiveKey := hasLive;
     TestKeyExp := expiry_string (GetExpiresAt p false);
     LiveKeyExp := expiry_string (GetExpiresAt p true);
     TestAPIKey := if showKeys && hasTest then RedactAPIKey (fst testKey) else "";
     LiveAPIKey := if showKeys && hasLive then RedactAPIKey (fst liveKey) else "" |}.

Definition optional_line (label value : string) : list text_line :=
  if String.eqb value "" then [] else [Field label value].

(** The expiry the warning compares with: the date of [TestKeyExp], when
    there is one and it parses. *)
Definition parsed_expiry (TestKeyExp : string) : option Time :=
  if String.eqb TestKeyExp "" then None
  else match time_Parse DateStringFormat TestKeyExp with
       | (exp, None) => Some exp
       | (_, Some _) => None
       end.

(** Lines 104-147: the line-oriented output. *)
Definition human_output (out : whoamiOutput) (showKeys : bool) (now : Time)
  : list text_line :=
  ([Field "project-name" (ProjectName out)]
   ++ optional_line "display_name" (DisplayName out)
   ++ optional_line "account_id" (AccountID out)
   ++ optional_line "device_name" (DeviceName out)
   ++ optional_line "color" (Color out)
   ++ [Field "has_test_mode_api_key" (fmt_bool (HasTestKey out))]
   ++ optional_line "test_mode_key_expires_at" (TestKeyExp out)
   ++ [Field "has_live_mode_api_key" (fmt_bool (HasLiveKey out))]
   ++ optional_line "live_mode_key_expires_at" (LiveKeyExp out)
   ++ (if showKeys
       then (if HasTestKey out then [Field "test_mode_api_key" (TestAPIKey out)] else [])
            ++ (if HasLiveKey out then [Field "live_mode_api_key" (LiveAPIKey out)] else [])
       else [])
   ++ (if IsStale (parsed_expiry (TestKeyExp out)) now then [Note expiry_warning] else []))%list.

(** The [RunE] of the command: [project_name] is the value of the
    [project-name] flag, [asJSON] and [showKeys] those of [--json] and
    [--show-keys], [now] the clock. *)
Definition RunE (Config : config.Config) (project_name : string)
    (asJSON showKeys : bool) (now : Time) : option error * Output :=
  match GetProfile Config with
  | None =>
      (Some "no active profile found (try `stripe login` or check your config)",
       TextLines [])
  | Some p =>
      let out := build_output Config p project_name showKeys in
      if asJSON then (None, JSONDocument (json_Marshal out))
      else (None, TextLines (human_output out showKeys now))
  end.

End RunE.

(** What the output shows under a name: the member of the document, or the
    line of that label. *)
Definition jvalue_text (v : jvalue) : string :=
  match v with
  | JString s => s
  | JBool b => fmt_bool b
  end.

Fixpoint member (k : string) (ms : list (string * jvalue)) : option string :=
  match ms with
  | [] => None
  | (k', v) :: rest => if String.eqb k' k then Some (jvalue_text v) else member k rest
  end.

Fixpoint line_of (k : string) (ls : list text_line) : option string :=
  match ls with
  | [] => None
  | Field k' v :: rest => if String.eqb k' k then Some v else line_of k rest
  | Note _ :: rest => line_of k rest
  end.

Definition is_expiry_warning (l : text_line) : bool :=
  match l with
  | Note msg => String.eqb msg expiry_warning
  | Field _ _ => false
  end.

Definition shown (k : string) (o : Output) : option string :=
  match o with
  | JSONDocument ms => member k ms
  | TextLines ls => line_of k ls
  end.

End whoami.

(* ===================================================================== *)
(** * Sample inputs                                                        *)
(* ===================================================================== *)

(** The situations of the tests of the repository, as values. *)

Module samples.

Import dotenv.

Definition no_files : World :=
  {| fs := ∅; environ := ∅; logs := []; stdout := [] |}.

(** A [.env] of mode [perm] holding the two recognised names and a third
    one, in a process that already has a device name. *)
Definition dotenv_world (perm : N) : World :=
  {| fs := {[ ".env" := RegularFile perm
                (inl {[ "STRIPE_SECRET_KEY" := "sk_test_123";
                        "STRIPE_DEVICE_NAME" := "test_device";
                        "PATH" := "/tmp/bin" ]}) ]};
     environ := {[ "STRIPE_DEVICE_NAME" := "laptop" ]};
     logs := []; stdout := [] |}.

(** A [.env] of mode 0600 that [godotenv.Read] rejects. *)
Definition malformed_dotenv_world : World :=
  {| fs := {[ ".env" := RegularFile 384 (inr "unexpected character in variable name") ]};
     environ := ∅; logs := []; stdout := [] |}.

Import config.


(** The profile of the tests of the identity command. *)
Definition test_profile : Profile :=
  {| ProfileName := "test"; AccountID := "acct_123"; DisplayName := "Alice";
     DeviceName := "";
     TestModeAPIKey := "sk_test_1234abcd";
     ProductionKey := "";
     SandboxKeyExpiresAt := Some {| year := 2099; month := 1; day := 2 |};
     ProductionKeyExpiresAt := Some {| year := 2099; month := 2; day := 3 |};
     ColorPref := ColorAuto |}.

Definition test_keyring : SecureStore :=
  Keyring {[ "test.live_mode_api_key" := "rk_live_0000000001" ]}.

Definition blank_disk : Disk := {| writable := true; files := ∅ |}.

Definition api_key_override (m : Mode) : string := "STRIPE_API_KEY".

(** The configuration of the test of the key-based login. *)
Definition login_config : Config :=
  {| config.Color := "auto"; LogLevel := "info";
     Profile_ := {| ProfileName := "default"; AccountID := ""; DisplayName := "";
                    DeviceName := "st-testing"; TestModeAPIKey := "";
                    ProductionKey := ""; SandboxKeyExpiresAt := None;
                    ProductionKeyExpiresAt := None; ColorPref := ColorAuto |};
     config.ProfilesFile := "stripe/config.toml" |}.

Definition is_space (c : ascii) : bool :=
  let n := N_of_ascii c in
  ((9 <=? n) && (n <=? 13) || (n =? 32))%N.

(** A stand-in for [strings.TrimSpace] on keys typed in ASCII: it trims
    tab, line feed, vertical tab, form feed, carriage return and space, and
    not the white space beyond ASCII that the library also trims. *)
Fixpoint trim_left (s : string) : string :=
  match s with
  | EmptyString => EmptyString
  | String c s' => if is_space c then trim_left s' else s
  end.

Fixpoint trim_right (s : string) : string :=
  match s with
  | EmptyString => EmptyString
  | String c s' =>
      let t := trim_right s' in
      if String.eqb t "" && is_space c then EmptyString else String c t
  end.

(** A service that names the account and then fails the verification
    request; the validator accepts secret and restricted keys, and the
    trimming is the ASCII stand-in above. *)
Definition flaky_service : login.LoginEnv :=
  {| login.strings_TrimSpace := fun s => trim_right (trim_left s);
     login.validators_APIKey := fun k =>
       if String.prefix "sk_" k || String.prefix "rk_" k then None
       else Some "the CLI only supports using a secret or restricted key";
     login.os_Hostname := ("build-host", None);
     login.getDisplayName := fun _ _ => ("test-display", None);
     login.SuccessMessage := fun _ _ => ("", Some "connection refused") |}.

Definition login_state : login.State Disk :=
  {| login.cfg := login_config; login.store := blank_disk; login.stdout := [] |}.

(** *** A clock library for the layout [2006-01-02] *)

(** Days from January 1 of year 1 to a date of the proleptic Gregorian
    calendar, and back. *)
Definition days_from_civil (y m d : Z) : Z :=
  let y := if (m <=? 2)%Z then (y - 1)%Z else y in
  let era := (y / 400)%Z in
  let yoe := (y - era * 400)%Z in
  let mp := if (2 <? m)%Z then (m - 3)%Z else (m + 9)%Z in
  let doy := ((153 * mp + 2) / 5 + d - 1)%Z in
  let doe := (yoe * 365 + yoe / 4 - yoe / 100 + doy)%Z in
  (era * 146097 + doe - 306)%Z.

Definition civil_from_days (z : Z) : Z * Z * Z :=
  let z := (z + 306)%Z in
  let era := (z / 146097)%Z in
  let doe := (z - era * 146097)%Z in
  let yoe := ((doe - doe / 1460 + doe / 36524 - doe / 146096) / 365)%Z in
  let doy := (doe - (365 * yoe + yoe / 4 - yoe / 100))%Z in
  let mp := ((5 * doy + 2) / 153)%Z in
  let d := (doy - (153 * mp + 2) / 5 + 1)%Z in
  let m := if (mp <? 10)%Z then (mp + 3)%Z else (mp - 9)%Z in
  let y := (yoe + era * 400 + (if (m <=? 2)%Z then 1 else 0))%Z in
  (y, m, d).

Definition days_in_month (y m : Z) : Z :=
  let leap := ((y mod 4 =? 0) && (negb (y mod 100 =? 0) || (y mod 400 =? 0)))%Z in
  if (m =? 2)%Z then (if leap then 29 else 28)%Z
  else if ((m =? 4) || (m =? 6) || (m =? 9) || (m =? 11))%Z then 30%Z
  else 31%Z.

Definition digit_value (c : ascii) : option Z :=
  let n := Z.of_N (N_of_ascii c) in
  if ((48 <=? n) && (n <=? 57))%Z then Some (n - 48)%Z else None.

Definition number (ds : list ascii) : option Z :=
  fold_left (fun acc c =>
               match acc, digit_value c with
               | Some n, Some d => Some (10 * n + d)%Z
               | _, _ => None
               end) ds (Some 0%Z).

Definition midnight (days : Z) : whoami.Time := (days * (24 * whoami.Hour))%Z.

Definition parse_date (s : string) : whoami.Time * option error :=
  match s with
  | String y1 (String y2 (String y3 (String y4 (String "-"
      (String m1 (String m2 (String "-" (String d1 (String d2 EmptyString))))))))) =>
      match number [y1; y2; y3; y4], number [m1; m2], number [d1; d2] with
      | Some y, Some m, Some d =>
          if ((1 <=? m) && (m <=? 12) && (1 <=? d) && (d <=? days_in_month y m))%Z
          then (midnight (days_from_civil y m d), None)
          else (0%Z, Some "parsing time: out of range")
      | _, _, _ => (0%Z, Some "parsing time: cannot parse")
      end
  | _ => (0%Z, Some "parsing time: cannot parse")
  end.

Definition format_time (t : whoami.Time) : string :=
  let '(y, m, d) := civil_from_days (t / (24 * whoami.Hour)) in
  format_date {| year := Z.to_N y; month := Z.to_N m; day := Z.to_N d |}.

Definition date_layout : whoami.TimeLib :=
  {| whoami.Time_Format := fun t _ => format_time t;
     whoami.time_Parse := fun _ s => parse_date s |}.

Definition time_of_date (d : Date) : whoami.Time :=
  midnight (days_from_civil (Z.of_N (year d)) (Z.of_N (month d)) (Z.of_N (day d))).

(** *** The profile methods, over an environment and a keyring *)

Fixpoint stars (n : nat) : string :=
  match n with
  | O => EmptyString
  | S n' => String "*" (stars n')
  end.

(** A redaction that keeps the first eight bytes. *)
Definition mask (s : string) : string :=
  String.substring 0 8 s +:+ stars (String.length s - 8).

Definition not_configured : error := "you have not configured API keys yet".

Definition profile_methods (env : gmap string string) (keyring : SecureStore)
  : whoami.ProfileAPI :=
  {| whoami.GetProfile := fun c => Some (Profile_ c);
     whoami.GetDisplayName := DisplayName;
     whoami.GetAccountID := fun p =>
       if String.eqb (AccountID p) "" then ("", Some not_configured)
       else (AccountID p, None);
     whoami.GetDeviceName := fun p =>
       match env !! "STRIPE_DEVICE_NAME" with
       | Some v => (v, None)
       | None => (DeviceName p, None)
       end;
     whoami.GetColor := fun _ => ("auto", None);
     whoami.GetAPIKey := fun p livemode =>
       let '(k, found) :=
         Resolve api_key_override env keyring p
           (if livemode then Production else Sandbox) in
       (k, if found then None else Some not_configured);
     whoami.GetExpiresAt := fun p livemode =>
       match (if livemode then ProductionKeyExpiresAt p else SandboxKeyExpiresAt p) with
       | Some d => (time_of_date d, None)
       | None => (0%Z, Some not_configured)
       end;
     whoami.RedactAPIKey := mask;
     whoami.DateStringFormat := "2006-01-02" |}.

Definition test_environ : gmap string string :=
  {[ "STRIPE_API_KEY" := ""; "STRIPE_DEVICE_NAME" := "device-from-env" ]}.

Definition test_config : Config :=
  {| config.Color := "auto"; LogLevel := "info"; Profile_ := test_profile;
     config.ProfilesFile := "/tmp/config.toml" |}.

End samples.

(* ===================================================================== *)
(** * Notions used to state further properties                             *)
(* ===================================================================== *)

Module dotenv_views.

Import dotenv.

(** The arguments on which [os.Setenv] answers EINVAL. *)
Definition setenv_invalid (k v : string) : bool :=
  String.eqb k "" || has_byte "=" k || has_byte "000" k || has_byte "000" v.

(** The parsed contents of the requested file, when it exists, is not
    world-readable and [godotenv.Read] accepts it. *)
Definition loadable (envFile : string) (w : World) : option (gmap string string) :=
  match fs w !! requested_file envFile with
  | Some (RegularFile mode (inl env)) =>
      if world_readable mode then None else Some env
  | _ => None
  end.

(** The line printed under [--dotenv]. *)
Definition loaded_message (path : string) : string :=
  "Loaded environment variables from " +:+ path +:+ newline.

(** The parsed contents of the [.env] of [samples.dotenv_world]. *)
Definition sample_contents : gmap string string :=
  {[ "STRIPE_SECRET_KEY" := "sk_test_123";
     "STRIPE_DEVICE_NAME" := "test_device";
     "PATH" := "/tmp/bin" ]}.

(** A [.env] below a directory that cannot be searched. *)
Definition unsearchable_world : World :=
  {| fs := {[ ".env" := Inaccessible "stat .env: permission denied" ]};
     environ := {[ "STRIPE_DEVICE_NAME" := "laptop" ]};
     logs := []; stdout := [] |}.

End dotenv_views.

Module whoami_views.

Import config whoami.

(** The output carries the expiry warning. *)
Definition warned (o : Output) : bool :=
  match o with
  | JSONDocument _ => false
  | TextLines ls => existsb is_expiry_warning ls
  end.

(** The names under which the output shows something, in order. *)
Definition names (o : Output) : list string :=
  match o with
  | JSONDocument ms => map fst ms
  | TextLines ls =>
      flat_map (fun l => match l with Field k _ => [k] | Note _ => [] end) ls
  end.

(** The printed chunk does not begin with the label of a key line. *)
Definition no_key_label (l : text_line) : bool :=
  negb (String.prefix "test_mode_api_key: " (render_line l))
  && negb (String.prefix "live_mode_api_key: " (render_line l)).

End whoami_views.

Module login_views.

Import config login.

(** A store that keeps the profiles it is given, latest first, and one that
    refuses every write. *)
Definition recording_store : ProfileStore (list Profile) :=
  {| Profile_CreateProfile := fun p written => (None, p :: written) |}.

Definition full_disk : ProfileStore (list Profile) :=
  {| Profile_CreateProfile := fun _ written => (Some "no space left on device", written) |}.

Definition fresh_login : State (list Profile) :=
  {| cfg := samples.login_config; store := []; stdout := [] |}.

(** The same, before any device name was configured. *)
Definition unnamed_login : State (list Profile) :=
  {| cfg := set_Profile (set_DeviceName "  " (Profile_ samples.login_config))
              samples.login_config;
     store := []; stdout := [] |}.

End login_views.

(* ===================================================================== *)
(** * The environment-file loader                                          *)
(* ===================================================================== *)

Section dotenv_properties.

Import dotenv.

Lemma choose_path_spec (envFile : string) (dotenv : bool) :
  choose_path envFile dotenv
  = (requested_file envFile, explicit_request envFile dotenv).
Proof.
  unfold choose_path, requested_file, explicit_request.
  destruct (String.eqb envFile ""); destruct dotenv; reflexivity.
Qed.

(** The test [mode&0004 != 0] of the code reads the "others" read bit. *)
Lemma land_4_world_readable (mode : N) :
  negb (N.land mode 4 =? 0)%N = world_readable mode.
Proof.
  unfold world_readable.
  destruct (N.testbit mode 2) eqn:Hbit.
  - apply negb_true_iff, N.eqb_neq. intros H0.
    assert (Hb : N.testbit (N.land mode 4) 2 = true)
      by (rewrite N.land_spec, Hbit; reflexivity).
    rewrite H0 in Hb. discriminate.
  - apply negb_false_iff, N.eqb_eq. apply N.bits_inj. intros n.
    rewrite N.land_spec, N.bits_0.
    destruct (N.eq_dec n 2%N) as [->|Hn].
    + rewrite Hbit. reflexivity.
    + change 4%N with (2 ^ 2)%N. rewrite N.pow2_bits_false by congruence.
      apply andb_false_r.
Qed.

Lemma os_Stat_missing (fs : gmap string FileNode) (path : string) :
  fs !! path = None -> os_Stat fs path = inr ErrNotExist.
Proof. intros H. unfold os_Stat. rewrite H. reflexivity. Qed.

Lemma os_Stat_regular (fs : gmap string FileNode) path mode content :
  fs !! path = Some (RegularFile mode content) -> os_Stat fs path = inl mode.
Proof. intros H. unfold os_Stat. rewrite H. reflexivity. Qed.

Lemma godotenv_Read_regular (fs : gmap string FileNode) path mode content :
  fs !! path = Some (RegularFile mode content) -> godotenv_Read fs path = content.
Proof. intros H. unfold godotenv_Read. rewrite H. reflexivity. Qed.

(** *** The loop over the allow-list *)

Lemma os_Setenv_other k v env k' :
  k' <> k -> snd (os_Setenv k v env) !! k' = env !! k'.
Proof.
  intros Hne. unfold os_Setenv.
  destruct (_ || _); simpl; [reflexivity|].
  rewrite lookup_insert_ne; congruence.
Qed.

Lemma import_var_other env penv k k' :
  k' <> k -> import_var env penv k !! k' = penv !! k'.
Proof.
  intros Hne. unfold import_var, os_LookupEnv.
  destruct (env !! k); [|reflexivity].
  destruct (penv !! k); simpl; [reflexivity|].
  apply os_Setenv_other, Hne.
Qed.

Lemma import_var_set env penv k k' :
  is_Some (penv !! k') -> import_var env penv k !! k' = penv !! k'.
Proof.
  intros Hset. destruct (decide (k' = k)) as [->|Hne].
  - unfold import_var, os_LookupEnv.
    destruct (env !! k); [|reflexivity].
    destruct Hset as [x Hx]. rewrite Hx. simpl. exact Hx.
  - apply import_var_other, Hne.
Qed.

Lemma import_vars_frame env ks : forall penv k',
  k' ∉ ks \/ is_Some (penv !! k') ->
  fold_left (import_var env) ks penv !! k' = penv !! k'.
Proof.
  induction ks as [|k ks IH]; intros penv k' Hk; simpl; [reflexivity|].
  rewrite IH.
  - destruct Hk as [Hnot|Hset].
    + apply import_var_other. intros ->. apply Hnot. left.
    + apply import_var_set, Hset.
  - destruct Hk as [Hnot|Hset].
    + left. intros Hin. apply Hnot. right. exact Hin.
    + right. rewrite import_var_set; assumption.
Qed.

(** Every path through the loader leaves the environment alone or runs the
    loop on the parsed file. *)
Lemma loadDotenvFromFlags_environ envFile dotenv w :
  environ (snd (loadDotenvFromFlags envFile dotenv w)) = environ w
  \/ exists env,
       godotenv_Read (fs w) (requested_file envFile) = inl env
       /\ environ (snd (loadDotenvFromFlags envFile dotenv w))
          = import_allowlisted env (environ w).
Proof.
  unfold loadDotenvFromFlags. rewrite choose_path_spec.
  destruct (os_Stat (fs w) (requested_file envFile)) as [mode|err].
  - destruct (negb (N.land mode 4 =? 0)%N).
    + left. destruct (explicit_request envFile dotenv); reflexivity.
    + destruct (godotenv_Read (fs w) (requested_file envFile)) as [env|err] eqn:Hread.
      * right. exists env. split; [reflexivity|].
        destruct dotenv; reflexivity.
      * left. reflexivity.
  - left. destruct (os_IsNotExist err), (explicit_request envFile dotenv); reflexivity.
Qed.

(** C5: when the environment file does not exist, the loader panics (a
    fatal error) if a path was given or the flag was set, and otherwise
    returns without having logged, printed or set anything. *)
Theorem loadDotenvFromFlags_missing_file (envFile : string) (dotenv : bool) (w : World) :
  fs w !! requested_file envFile = None ->
  loadDotenvFromFlags envFile dotenv w
  = (if explicit_request envFile dotenv
     then Panicked ("failed to load " +:+ requested_file envFile +:+ ": file not found")
     else Returned, w).
Proof.
  intros Hmissing. unfold loadDotenvFromFlags.
  rewrite choose_path_spec, (os_Stat_missing _ _ Hmissing). simpl.
  destruct (explicit_request envFile dotenv); reflexivity.
Qed.

(** C3: when the environment file exists and is world-readable, an explicit
    request panics (a fatal error) and auto-load returns; both log the
    warning, and neither sets an environment variable. *)
Theorem loadDotenvFromFlags_world_readable
    (envFile : string) (dotenv : bool) (w : World) mode content :
  fs w !! requested_file envFile = Some (RegularFile mode content) ->
  world_readable mode = true ->
  let r := loadDotenvFromFlags envFile dotenv w in
  fst r = (if explicit_request envFile dotenv
           then Panicked (".env file has insecure permissions (world-readable): "
                          +:+ requested_file envFile +:+ ". Run 'chmod 600 "
                          +:+ requested_file envFile +:+ "' to fix this")
           else Returned)
  /\ environ (snd r) = environ w
  /\ stdout (snd r) = stdout w
  /\ exists e, logs (snd r) = (logs w ++ [e])%list
               /\ level e = WarnLevel /\ message e = permissive_warning.
Proof.
  intros Hfile Hbit r. subst r. unfold loadDotenvFromFlags.
  rewrite choose_path_spec, (os_Stat_regular _ _ _ _ Hfile).
  rewrite land_4_world_readable, Hbit.
  destruct (explicit_request envFile dotenv); simpl;
    (split; [reflexivity|]); (split; [reflexivity|]); (split; [reflexivity|]);
    eexists; (split; [reflexivity|]); split; reflexivity.
Qed.

(** C4: whatever the flags, the files and the prior environment, the loader
    leaves every variable outside the allow-list and every variable that
    was already set as it found it. *)
Theorem loadDotenvFromFlags_frame
    (envFile : string) (dotenv : bool) (w : World) (k : string) :
  k ∉ allowlist \/ is_Some (environ w !! k) ->
  environ (snd (loadDotenvFromFlags envFile dotenv w)) !! k = environ w !! k.
Proof.
  intros Hk.
  destruct (loadDotenvFromFlags_environ envFile dotenv w) as [->|(env & _ & ->)];
    [reflexivity|].
  apply import_vars_frame, Hk.
Qed.

(** The rows "load" of the decision table: a file that is not
    world-readable and parses is loaded, asked for or not. *)
Lemma loadDotenvFromFlags_loads
    (envFile : string) (dotenv : bool) (w : World) mode env :
  fs w !! requested_file envFile = Some (RegularFile mode (inl env)) ->
  world_readable mode = false ->
  fst (loadDotenvFromFlags envFile dotenv w) = Returned
  /\ environ (snd (loadDotenvFromFlags envFile dotenv w))
     = import_allowlisted env (environ w).
Proof.
  intros Hfile Hbit. unfold loadDotenvFromFlags.
  rewrite choose_path_spec, (os_Stat_regular _ _ _ _ Hfile).
  rewrite land_4_world_readable, Hbit. simpl.
  rewrite (godotenv_Read_regular _ _ _ _ Hfile).
  destruct dotenv; split; reflexivity.
Qed.

(** The read of a securely-permissioned file that fails panics, whether or
    not the file was asked for. *)
Lemma loadDotenvFromFlags_read_error
    (envFile : string) (dotenv : bool) (w : World) mode err :
  fs w !! requested_file envFile = Some (RegularFile mode (inr err)) ->
  world_readable mode = false ->
  loadDotenvFromFlags envFile dotenv w
  = (Panicked ("failed to load " +:+ requested_file envFile +:+ ": " +:+ err), w).
Proof.
  intros Hfile Hbit. unfold loadDotenvFromFlags.
  rewrite choose_path_spec, (os_Stat_regular _ _ _ _ Hfile).
  rewrite land_4_world_readable, Hbit. simpl.
  rewrite (godotenv_Read_regular _ _ _ _ Hfile). reflexivity.
Qed.

(** C2: with neither flag given, a [.env] of mode 0600 that cannot be parsed
    makes the loader panic: the error of an ingestion nobody asked for is
    fatal, where the specification has it logged and swallowed. *)
Theorem loadDotenvFromFlags_autoload_read_error_panics :
  explicit_request "" false = false
  /\ loadDotenvFromFlags "" false samples.malformed_dotenv_world
     = (Panicked "failed to load .env: unexpected character in variable name",
        samples.malformed_dotenv_world).
Proof.
  split; [reflexivity|].
  apply (loadDotenvFromFlags_read_error "" false samples.malformed_dotenv_world 384);
    reflexivity.
Qed.

Lemma loadDotenvFromFlags_missing_file_witness :
  loadDotenvFromFlags "/nonexistent/file.env" false samples.no_files
  = (Panicked "failed to load /nonexistent/file.env: file not found", samples.no_files)
  /\ loadDotenvFromFlags "" true samples.no_files
     = (Panicked "failed to load .env: file not found", samples.no_files)
  /\ loadDotenvFromFlags "" false samples.no_files = (Returned, samples.no_files).
Proof.
  split; [|split].
  - apply (loadDotenvFromFlags_missing_file "/nonexistent/file.env" false samples.no_files).
    reflexivity.
  - apply (loadDotenvFromFlags_missing_file "" true samples.no_files). reflexivity.
  - apply (loadDotenvFromFlags_missing_file "" false samples.no_files). reflexivity.
Defined.

Lemma loadDotenvFromFlags_world_readable_witness :
  fst (loadDotenvFromFlags "" false (samples.dotenv_world 420)) = Returned
  /\ environ (snd (loadDotenvFromFlags "" false (samples.dotenv_world 420)))
     = environ (samples.dotenv_world 420)
  /\ exists err, fst (loadDotenvFromFlags ".env" false (samples.dotenv_world 420))
                 = Panicked err.
Proof.
  split; [|split].
  - refine (proj1 (loadDotenvFromFlags_world_readable "" false
                     (samples.dotenv_world 420) 420 _ _ _)); reflexivity.
  - refine (proj1 (proj2 (loadDotenvFromFlags_world_readable "" false
                            (samples.dotenv_world 420) 420 _ _ _))); reflexivity.
  - eexists.
    refine (proj1 (loadDotenvFromFlags_world_readable ".env" false
                     (samples.dotenv_world 420) 420 _ _ _)); reflexivity.
Defined.

Lemma loadDotenvFromFlags_frame_witness :
  environ (snd (loadDotenvFromFlags "" false (samples.dotenv_world 384))) !! "PATH"
  = None
  /\ environ (snd (loadDotenvFromFlags "" false (samples.dotenv_world 384)))
       !! "STRIPE_DEVICE_NAME" = Some "laptop".
Proof.
  split.
  - rewrite (loadDotenvFromFlags_frame "" false (samples.dotenv_world 384) "PATH").
    + reflexivity.
    + left. unfold allowlist. intros Hin.
      apply list_elem_of_In in Hin. simpl in Hin.
      destruct Hin as [H|[H|[]]]; discriminate H.
  - rewrite (loadDotenvFromFlags_frame "" false (samples.dotenv_world 384)
               "STRIPE_DEVICE_NAME").
    + reflexivity.
    + right. exists "laptop". reflexivity.
Defined.

(** The scenarios of the specification: a [.env] of mode 0600 is loaded on
    auto-load, the variable that was unset takes the value of the file. *)
Example autoload_0600_sets_secret_key :
  loadDotenvFromFlags "" false (samples.dotenv_world 384)
  = (Returned,
     {| fs := fs (samples.dotenv_world 384);
        environ := {[ "STRIPE_DEVICE_NAME" := "laptop";
                      "STRIPE_SECRET_KEY" := "sk_test_123" ]};
        logs := [ {| level := DebugLevel;
                     fields := [("prefix", "cmd.loadDotenvFromFlags"); ("path", ".env")];
                     message := "Loaded environment variables from .env file" |} ];
        stdout := [] |}).
Proof. vm_compute. reflexivity. Qed.

Example autoload_0644_logs_mode :
  logs (snd (loadDotenvFromFlags "" false (samples.dotenv_world 420)))
  = [ {| level := WarnLevel;
         fields := [("prefix", "cmd.loadDotenvFromFlags"); ("path", ".env");
                    ("mode", "0644")];
         message := permissive_warning |} ].
Proof. reflexivity. Qed.

End dotenv_properties.


(* ===================================================================== *)
(** * Credential resolution                                                *)
(* ===================================================================== *)

Section resolver_properties.

Import config.

(** C7: when the environment override of the mode is set and not empty,
    [Resolve] returns it, as found, whatever the profile file and the
    secure store hold. *)
Theorem Resolve_environment_override_wins
    (overrideVar : Mode -> string) (env : gmap string string)
    (store : SecureStore) (p : Profile) (m : Mode) (v : string) :
  env !! overrideVar m = Some v ->
  v <> "" ->
  Resolve overrideVar env store p m = (v, true).
Proof.
  intros Hset Hne. unfold Resolve. rewrite Hset.
  destruct (String.eqb v "") eqn:Hv; [|reflexivity].
  apply String.eqb_eq in Hv. contradiction.
Qed.

Lemma Resolve_environment_override_wins_witness :
  Resolve samples.api_key_override {[ "STRIPE_API_KEY" := "sk_test_override" ]}
    samples.test_keyring samples.test_profile Sandbox = ("sk_test_override", true)
  /\ Resolve samples.api_key_override {[ "STRIPE_API_KEY" := "sk_test_override" ]}
       samples.test_keyring samples.test_profile Production = ("sk_test_override", true).
Proof.
  split.
  - apply (Resolve_environment_override_wins samples.api_key_override
             {[ "STRIPE_API_KEY" := "sk_test_override" ]}
             samples.test_keyring samples.test_profile Sandbox "sk_test_override").
    + reflexivity.
    + discriminate.
  - apply (Resolve_environment_override_wins samples.api_key_override
             {[ "STRIPE_API_KEY" := "sk_test_override" ]}
             samples.test_keyring samples.test_profile Production "sk_test_override").
    + reflexivity.
    + discriminate.
Defined.

(** Without an override each mode resolves from its own tier only. *)
Example Resolve_stored_values :
  Resolve samples.api_key_override {[ "STRIPE_API_KEY" := "" ]}
    samples.test_keyring samples.test_profile Sandbox = ("sk_test_1234abcd", true)
  /\ Resolve samples.api_key_override ∅
       samples.test_keyring samples.test_profile Production = ("rk_live_0000000001", true)
  /\ Resolve samples.api_key_override ∅
       NoBackend samples.test_profile Production = ("", false).
Proof. repeat split. Qed.

End resolver_properties.

(* ===================================================================== *)
(** * The plaintext profile file and the key-based login                   *)
(* ===================================================================== *)

Section login_properties.

Import config login.

Lemma serialize_set_ProductionKey (k : string) (p : Profile) :
  serialize (set_ProductionKey k p) = serialize p.
Proof. reflexivity. Qed.

















(** The same through the login: given the key that the profile in memory
    holds as production key, [LoginWithAPIKey] writes it as
    [test_mode_api_key]. *)
Example LoginWithAPIKey_persists_the_given_key :
  let st := with_production_key "rk_live_0000000001" samples.login_state in
  let r := LoginWithAPIKey (E := samples.flaky_service)
             (S := PlaintextStore "stripe/config.toml")
             "https://api.stripe.com" "rk_live_0000000001" st in
  fst r = None
  /\ ProductionKey (Profile_ (cfg (snd r))) = "rk_live_0000000001"
  /\ files (store (snd r)) !! "stripe/config.toml"
     = Some {| perm := 384;
               blocks := [("default", [("display_name", "test-display");
                                       ("test_mode_api_key", "rk_live_0000000001")])] |}.
Proof. vm_compute. repeat split. Qed.

(** C10: when the key is valid and the profile is written, the login
    returns no error and leaves the written store as it is, whether the
    verification request succeeds or fails; its error is only printed. *)
Theorem LoginWithAPIKey_verification_error_swallowed
    `{E : LoginEnv} {Store : Type} `{S : ProfileStore Store}
    (apiBaseURL apiKey : string) (st : State Store) (store' : Store) :
  validators_APIKey (strings_TrimSpace apiKey) = None ->
  Profile_CreateProfile
    (updated_profile apiBaseURL (strings_TrimSpace apiKey) (Profile_ (cfg st)))
    (store st) = (None, store') ->
  let r := LoginWithAPIKey apiBaseURL apiKey st in
  fst r = None
  /\ store (snd r) = store'
  /\ stdout (snd r)
     = (stdout st ++
        [match SuccessMessage apiBaseURL (strings_TrimSpace apiKey) with
         | (_, Some err) =>
             "> Error verifying the CLI was setup successfully: " +:+ err +:+ newline
         | (message, None) => "> " +:+ message +:+ newline
         end])%list.
Proof.
  intros Hvalid Hwrite r. subst r. unfold LoginWithAPIKey.
  rewrite Hvalid, Hwrite.
  destruct (SuccessMessage apiBaseURL (strings_TrimSpace apiKey)) as [msg [err|]];
    repeat split.
Qed.

Lemma LoginWithAPIKey_verification_error_swallowed_witness :
  let S := PlaintextStore "stripe/config.toml" in
  let r := LoginWithAPIKey (E := samples.flaky_service)
             "https://api.stripe.com" " sk_test_1234567890 " samples.login_state in
  fst r = None
  /\ files (store (snd r)) !! "stripe/config.toml"
     = Some {| perm := 384;
               blocks := [("default", [("display_name", "test-display");
                                       ("test_mode_api_key", "sk_test_1234567890")])] |}
  /\ stdout (snd r)
     = ["> Error verifying the CLI was setup successfully: connection refused" +:+ newline].
Proof.
  intros S r.
  destruct (LoginWithAPIKey_verification_error_swallowed
              (E := samples.flaky_service) (S := S)
              "https://api.stripe.com" " sk_test_1234567890 " samples.login_state
              (snd (CreateProfile "stripe/config.toml"
                      (updated_profile (E := samples.flaky_service)
                         "https://api.stripe.com" "sk_test_1234567890"
                         (Profile_ samples.login_config))
                      samples.blank_disk))
              eq_refl eq_refl) as (Herr & Hstore & Hout).
  split; [exact Herr|]. split.
  - fold r in Hstore. rewrite Hstore. vm_compute. reflexivity.
  - exact Hout.
Defined.

End login_properties.

(* ===================================================================== *)
(** * The identity command                                                 *)
(* ===================================================================== *)

Section whoami_properties.

Import config whoami.

Example sample_dates :
  samples.format_time (samples.time_of_date {| year := 2099; month := 1; day := 2 |})
  = "2099-01-02"
  /\ samples.parse_date "2099-02-03"
     = (samples.time_of_date {| year := 2099; month := 2; day := 3 |}, None)
  /\ samples.parse_date "1970-01-01" = (samples.midnight 719162%Z, None)
  /\ samples.format_time 0%Z = "0001-01-01"
  /\ snd (samples.parse_date "2099-02-30") <> None.
Proof. vm_compute. repeat split; discriminate. Qed.

Example whoami_json_show_keys :
  RunE (A := samples.profile_methods samples.test_environ samples.test_keyring)
       (T := samples.date_layout)
       samples.test_config "test" true true (samples.midnight 738000%Z)
  = (None,
     JSONDocument
       [("project_name", JString "test"); ("account_id", JString "acct_123");
        ("display_name", JString "Alice"); ("device_name", JString "device-from-env");
        ("color", JString "auto");
        ("has_test_mode_api_key", JBool true); ("has_live_mode_api_key", JBool true);
        ("test_mode_key_expires_at", JString "2099-01-02");
        ("live_mode_key_expires_at", JString "2099-02-03");
        ("test_mode_api_key", JString "sk_test_********");
        ("live_mode_api_key", JString "rk_live_**********");
        ("profiles_file", JString "/tmp/config.toml")]).
Proof. vm_compute. reflexivity. Qed.

(** *** Strings in the JSON document *)

(** Bytes below 0x80 are written as they are. *)
Lemma json_string_ascii (s : string) :
  forallb (fun c => (N_of_ascii c <? 128)%N) (list_ascii_of_string s) = true ->
  json_string s = s.
Proof.
  induction s as [|c s IH]; simpl; [reflexivity|].
  intros H. apply andb_true_iff in H as [Hc Hs].
  rewrite Hc, (IH Hs). reflexivity.
Qed.

(** A two-byte encoding is kept; a stray byte, the bytes of a truncated
    encoding, of an overlong one and of a surrogate each become U+FFFD. *)
Example json_string_samples :
  json_string "sk_test_1234abcd" = "sk_test_1234abcd"
  /\ json_string (String "195" (String "169" "!")) = String "195" (String "169" "!")
  /\ json_string (String "a" (String "255" "b")) = "a" +:+ replacement +:+ "b"
  /\ json_string (String "226" (String "130" "")) = replacement +:+ replacement
  /\ json_string (String "192" (String "128" "")) = replacement +:+ replacement
  /\ json_string (String "237" (String "160" (String "128" "")))
     = replacement +:+ replacement +:+ replacement
  /\ json_string replacement = replacement.
Proof. repeat split. Qed.

(** *** Reading a document and a page of lines *)

Lemma member_omitempty (k k' v : string) (rest : list (string * jvalue)) :
  member k (omitempty k' v ++ rest)
  = if String.eqb k' k && negb (String.eqb v "") then Some (json_string v)
    else member k rest.
Proof.
  unfold omitempty. destruct (String.eqb v ""); simpl.
  - rewrite andb_false_r. reflexivity.
  - rewrite andb_true_r. reflexivity.
Qed.

Lemma member_omitempty_last (k k' v : string) :
  member k (omitempty k' v)
  = if String.eqb k' k && negb (String.eqb v "") then Some (json_string v) else None.
Proof.
  rewrite <- (app_nil_r (omitempty k' v)). apply member_omitempty.
Qed.

Lemma line_of_optional (k k' v : string) (rest : list text_line) :
  line_of k (optional_line k' v ++ rest)
  = if String.eqb k' k && negb (String.eqb v "") then Some v else line_of k rest.
Proof.
  unfold optional_line. destruct (String.eqb v ""); simpl.
  - rewrite andb_false_r. reflexivity.
  - rewrite andb_true_r. reflexivity.
Qed.

Lemma is_expiry_warning_optional (k v : string) (rest : list text_line) :
  existsb is_expiry_warning (optional_line k v ++ rest)
  = existsb is_expiry_warning rest.
Proof. unfold optional_line. destruct (String.eqb v ""); reflexivity. Qed.

Ltac read_output :=
  repeat progress
    (rewrite ?member_omitempty, ?member_omitempty_last, ?line_of_optional; simpl).

(** The warning is printed exactly when the expiry read back from
    [TestKeyExp] is stale. *)
Lemma human_output_warning `{A : ProfileAPI} `{T : TimeLib}
    (out : whoamiOutput) (showKeys : bool) (now : Time) :
  existsb is_expiry_warning (human_output out showKeys now)
  = IsStale (parsed_expiry (TestKeyExp out)) now.
Proof.
  unfold human_output. simpl.
  rewrite !is_expiry_warning_optional. simpl.
  rewrite !is_expiry_warning_optional. simpl.
  rewrite !is_expiry_warning_optional.
  destruct showKeys, (HasTestKey out), (HasLiveKey out),
    (IsStale (parsed_expiry (TestKeyExp out)) now); reflexivity.
Qed.

(** C6: the identity command flags the test key as stale exactly when the
    clock is more than 24 hours (in nanoseconds) past the recorded expiry,
    read back from its printed date: it does not warn at the expiry nor 23
    hours after it, and warns 25 hours after it; a key without a recorded
    expiry is never flagged, whatever the clock.  [IsStale] is that test:
    false at the expiry and 23 hours later, true 25 hours later, false
    without an expiry. *)
Theorem IsStale_grace_window `{A : ProfileAPI} `{T : TimeLib}
    (Config : config.Config) (p : Profile) (project_name : string)
    (showKeys : bool) :
  GetProfile Config = Some p ->
  let warns now :=
    whoami_views.warned (snd (RunE Config project_name false showKeys now)) in
  (forall (t exp : Time),
      GetExpiresAt p false = (t, None) ->
      Time_IsZero t = false ->
      Time_Format t DateStringFormat <> "" ->
      time_Parse DateStringFormat (Time_Format t DateStringFormat) = (exp, None) ->
      (forall now, warns now = true <-> (86400000000000 < now - exp)%Z)
      /\ warns exp = false
      /\ warns (exp + 23 * 3600000000000)%Z = false
      /\ warns (exp + 25 * 3600000000000)%Z = true
      /\ (forall now, warns now = IsStale (Some exp) now))
  /\ (snd (GetExpiresAt p false) <> None
      \/ Time_IsZero (fst (GetExpiresAt p false)) = true ->
      forall now, warns now = false)
  /\ (forall exp now : Time,
        (IsStale (Some exp) now = true <-> (86400000000000 < now - exp)%Z)
        /\ IsStale (Some exp) exp = false
        /\ IsStale (Some exp) (exp + 23 * 3600000000000)%Z = false
        /\ IsStale (Some exp) (exp + 25 * 3600000000000)%Z = true
        /\ IsStale None now = false).
Proof.
  intros Hp warns.
  assert (Hwarns : forall now,
             warns now
             = IsStale (parsed_expiry (expiry_string (GetExpiresAt p false))) now).
  { intros now. subst warns. unfold RunE. rewrite Hp.
    cbn [snd whoami_views.warned]. rewrite human_output_warning. reflexivity. }
  split; [|split].
  - intros t exp Hget Hzero Hformat Hparse.
    assert (Hexp : parsed_expiry (expiry_string (GetExpiresAt p false)) = Some exp).
    { unfold expiry_string. rewrite Hget, Hzero. simpl. unfold parsed_expiry.
      destruct (String.eqb (Time_Format t DateStringFormat) "") eqn:Hempty.
      - apply String.eqb_eq in Hempty. contradiction.
      - rewrite Hparse. reflexivity. }
    assert (Hlate : forall now, warns now = (exp + 24 * Hour <? now)%Z).
    { intros now. rewrite Hwarns, Hexp. reflexivity. }
    unfold Hour in Hlate.
    split; [intros now; rewrite Hlate, Z.ltb_lt; lia|].
    split; [rewrite Hlate; apply Z.ltb_ge; lia|].
    split; [rewrite Hlate; apply Z.ltb_ge; lia|].
    split; [rewrite Hlate; apply Z.ltb_lt; lia|].
    intros now. rewrite Hwarns, Hexp. reflexivity.
  - intros Hmissing now. rewrite Hwarns.
    assert (Hnone : expiry_string (GetExpiresAt p false) = "").
    { unfold expiry_string.
      destruct (GetExpiresAt p false) as [t [e|]]; simpl in *; [reflexivity|].
      destruct Hmissing as [H|H]; [contradiction|]. rewrite H. reflexivity. }
    rewrite Hnone. reflexivity.
  - intros exp now. unfold IsStale, Time_After, Time_Add, Hour.
    split; [rewrite Z.ltb_lt; lia|].
    split; [apply Z.ltb_ge; lia|].
    split; [apply Z.ltb_ge; lia|].
    split; [apply Z.ltb_lt; lia|reflexivity].
Qed.

Lemma IsStale_grace_window_witness :
  let A := samples.profile_methods samples.test_environ NoBackend in
  let T := samples.date_layout in
  let expiry := samples.time_of_date {| year := 2099; month := 1; day := 2 |} in
  whoami_views.warned
    (snd (RunE samples.test_config "test" false false (expiry + 23 * 3600000000000)%Z))
  = false
  /\ whoami_views.warned
       (snd (RunE samples.test_config "test" false false (expiry + 25 * 3600000000000)%Z))
     = true
  /\ whoami_views.warned
       (snd (RunE samples.login_config "default" false false (expiry + 25 * 3600000000000)%Z))
     = false.
Proof.
  intros A T expiry.
  destruct (IsStale_grace_window (A := A) (T := T) samples.test_config
              samples.test_profile "test" false ltac:(reflexivity))
    as (Hrecorded & _ & _).
  destruct (Hrecorded expiry expiry ltac:(reflexivity) ltac:(reflexivity)
              ltac:(discriminate) ltac:(reflexivity))
    as (_ & _ & H23 & H25 & _).
  destruct (IsStale_grace_window (A := A) (T := T) samples.login_config
              (Profile_ samples.login_config) "default" false ltac:(reflexivity))
    as (_ & Hmissing & _).
  split; [exact H23|]. split; [exact H25|].
  apply Hmissing. left. discriminate.
Defined.

(** C9: for a configured profile the command returns no error and always
    shows the two has-key booleans, false for a mode whose key is missing
    or whose getter fails.  With [--show-keys] a mode that has a key shows
    the redaction of that key: the text prints it as it is, the JSON
    document as [encoding/json] writes it and leaves it out when it is
    empty.  Without [--show-keys], and for a mode without key, neither
    rendering shows a key field. *)
Theorem whoami_shows_keys_only_redacted `{A : ProfileAPI} `{T : TimeLib}
    (Config : config.Config) (p : Profile) (project_name : string)
    (asJSON showKeys : bool) (now : Time) :
  GetProfile Config = Some p ->
  let r := RunE Config project_name asJSON showKeys now in
  let present livemode :=
    match GetAPIKey p livemode with
    | (k, None) => negb (String.eqb k "")
    | (_, Some _) => false
    end in
  let redaction livemode := RedactAPIKey (fst (GetAPIKey p livemode)) in
  let key_shown livemode :=
    if showKeys && present livemode then
      if asJSON then
        if String.eqb (redaction livemode) "" then None
        else Some (json_string (redaction livemode))
      else Some (redaction livemode)
    else None in
  fst r = None
  /\ shown "has_test_mode_api_key" (snd r)
     = Some (if present false then "true" else "false")
  /\ shown "has_live_mode_api_key" (snd r)
     = Some (if present true then "true" else "false")
  /\ shown "test_mode_api_key" (snd r) = key_shown false
  /\ shown "live_mode_api_key" (snd r) = key_shown true
  /\ (showKeys = false ->
        shown "test_mode_api_key" (snd r) = None
        /\ shown "live_mode_api_key" (snd r) = None)
  /\ (snd (GetAPIKey p false) <> None ->
        shown "has_test_mode_api_key" (snd r) = Some "false")
  /\ (snd (GetAPIKey p true) <> None ->
        shown "has_live_mode_api_key" (snd r) = Some "false").
Proof.
  intros Hp r present redaction key_shown.
  assert (Hpresent : forall livemode,
             has_key (GetAPIKey p livemode) = present livemode).
  { intros livemode. subst present. unfold has_key.
    destruct (GetAPIKey p livemode) as [k [e|]]; reflexivity. }
  assert (Hhas : shown "has_test_mode_api_key" (snd r)
                 = Some (if present false then "true" else "false")
                 /\ shown "has_live_mode_api_key" (snd r)
                    = Some (if present true then "true" else "false")).
  { subst r. unfold RunE. rewrite Hp. rewrite <- !Hpresent.
    destruct asJSON; simpl.
    - unfold json_Marshal, build_output; simpl. read_output.
      split; reflexivity.
    - unfold human_output, build_output; simpl. read_output.
      split; reflexivity. }
  assert (Hkeys : shown "test_mode_api_key" (snd r) = key_shown false
                  /\ shown "live_mode_api_key" (snd r) = key_shown true).
  { subst r key_shown. unfold RunE. rewrite Hp. rewrite <- !Hpresent.
    subst redaction. cbv beta.
    destruct asJSON; simpl.
    - unfold json_Marshal, build_output; simpl. read_output.
      destruct showKeys, (has_key (GetAPIKey p false)), (has_key (GetAPIKey p true));
        simpl;
        repeat match goal with |- context [String.eqb ?v ""] =>
          destruct (String.eqb v ""); simpl end;
        split; reflexivity.
    - unfold human_output, build_output; simpl. read_output.
      destruct showKeys, (has_key (GetAPIKey p false)), (has_key (GetAPIKey p true));
        simpl;
        repeat match goal with |- context [if ?b then _ else _] =>
          destruct b; simpl end;
        split; reflexivity. }
  destruct Hhas as [Htest Hlive]. destruct Hkeys as [Hk1 Hk2].
  split. { subst r. unfold RunE. rewrite Hp. destruct asJSON; reflexivity. }
  split; [exact Htest|]. split; [exact Hlive|].
  split; [exact Hk1|]. split; [exact Hk2|].
  split.
  { intros Hquiet. rewrite Hk1, Hk2. subst key_shown. cbv beta.
    rewrite Hquiet. split; reflexivity. }
  split.
  - intros Herr. rewrite Htest. subst present. cbv beta.
    destruct (GetAPIKey p false) as [k [e|]]; [reflexivity|].
    simpl in Herr. contradiction.
  - intros Herr. rewrite Hlive. subst present. cbv beta.
    destruct (GetAPIKey p true) as [k [e|]]; [reflexivity|].
    simpl in Herr. contradiction.
Qed.

Lemma whoami_shows_keys_only_redacted_witness :
  let A := samples.profile_methods samples.test_environ samples.test_keyring in
  let T := samples.date_layout in
  let quiet := RunE samples.test_config "test" true false (samples.midnight 738000%Z) in
  let shown_keys := RunE samples.test_config "test" false true (samples.midnight 738000%Z) in
  let shown_json := RunE samples.test_config "test" true true (samples.midnight 738000%Z) in
  (fst quiet = None
   /\ shown "has_test_mode_api_key" (snd quiet) = Some "true"
   /\ shown "test_mode_api_key" (snd quiet) = None
   /\ shown "live_mode_api_key" (snd quiet) = None)
  /\ (fst shown_keys = None
      /\ shown "has_live_mode_api_key" (snd shown_keys) = Some "true"
      /\ shown "live_mode_api_key" (snd shown_keys) = Some "rk_live_**********")
  /\ shown "test_mode_api_key" (snd shown_json) = Some "sk_test_********".
Proof.
  intros A T quiet shown_keys shown_json. split; [|split].
  - destruct (whoami_shows_keys_only_redacted (A := A) (T := T)
                samples.test_config samples.test_profile
                "test" true false (samples.midnight 738000%Z) ltac:(reflexivity))
      as (Herr & Htest & _ & _ & _ & Hquiet & _).
    split; [exact Herr|]. split; [exact Htest|]. exact (Hquiet eq_refl).
  - destruct (whoami_shows_keys_only_redacted (A := A) (T := T)
                samples.test_config samples.test_profile
                "test" false true (samples.midnight 738000%Z) ltac:(reflexivity))
      as (Herr & _ & Hlive & _ & Hredacted & _).
    split; [exact Herr|]. split; [exact Hlive|]. exact Hredacted.
  - destruct (whoami_shows_keys_only_redacted (A := A) (T := T)
                samples.test_config samples.test_profile
                "test" true true (samples.midnight 738000%Z) ltac:(reflexivity))
      as (_ & _ & _ & Hredacted & _).
    exact Hredacted.
Defined.

(** The scenario of the specification, in both renderings. *)
Example whoami_json_without_keys :
  RunE (A := samples.profile_methods samples.test_environ samples.test_keyring)
       (T := samples.date_layout)
       samples.test_config "test" true false (samples.midnight 738000%Z)
  = (None,
     JSONDocument
       [("project_name", JString "test"); ("account_id", JString "acct_123");
        ("display_name", JString "Alice"); ("device_name", JString "device-from-env");
        ("color", JString "auto");
        ("has_test_mode_api_key", JBool true); ("has_live_mode_api_key", JBool true);
        ("test_mode_key_expires_at", JString "2099-01-02");
        ("live_mode_key_expires_at", JString "2099-02-03");
        ("profiles_file", JString "/tmp/config.toml")]).
Proof. vm_compute. reflexivity. Qed.

(** With no keyring backend and no stored key the command still succeeds;
    a day and an hour after the expiry it prints the warning. *)
Example whoami_text_without_live_key :
  RunE (A := samples.profile_methods samples.test_environ NoBackend)
       (T := samples.date_layout)
       samples.test_config "test" false true
       (samples.time_of_date {| year := 2099; month := 1; day := 3 |} + Hour)%Z
  = (None,
     TextLines
       [Field "project-name" "test"; Field "display_name" "Alice";
        Field "account_id" "acct_123"; Field "device_name" "device-from-env";
        Field "color" "auto";
        Field "has_test_mode_api_key" "true";
        Field "test_mode_key_expires_at" "2099-01-02";
        Field "has_live_mode_api_key" "false";
        Field "live_mode_key_expires_at" "2099-02-03";
        Field "test_mode_api_key" "sk_test_********";
        Note expiry_warning]).
Proof. vm_compute. reflexivity. Qed.

End whoami_properties.

(* ===================================================================== *)
(** * Further properties of the environment-file loader                    *)
(* ===================================================================== *)

Section dotenv_further.

Import dotenv dotenv_views.

(** Case analysis on what the requested path denotes. *)
Ltac by_node envFile w :=
  unfold loadDotenvFromFlags; rewrite choose_path_spec;
  unfold os_Stat, godotenv_Read;
  let mode := fresh "mode" in
  let env := fresh "env" in
  let err := fresh "err" in
  let Hnode := fresh "Hnode" in
  let Hbit := fresh "Hbit" in
  destruct (fs w !! requested_file envFile) as [[mode [env|err]|err]|] eqn:Hnode;
  simpl; rewrite ?land_4_world_readable;
  try (destruct (world_readable mode) eqn:Hbit; simpl).

Lemma os_Setenv_invalid (k v : string) (env : gmap string string) :
  snd (os_Setenv k v env) = if setenv_invalid k v then env else <[k := v]> env.
Proof.
  unfold os_Setenv, setenv_invalid. destruct (_ || _); reflexivity.
Qed.

Lemma import_var_same (env penv : gmap string string) (k : string) :
  import_var env penv k !! k
  = match penv !! k with
    | Some old => Some old
    | None => match env !! k with
              | Some v => if setenv_invalid k v then None else Some v
              | None => None
              end
    end.
Proof.
  unfold import_var, os_LookupEnv.
  destruct (penv !! k) as [old|] eqn:Hold.
  - destruct (env !! k); simpl; exact Hold.
  - destruct (env !! k) as [v|]; simpl; [|exact Hold].
    rewrite os_Setenv_invalid. destruct (setenv_invalid k v); [exact Hold|].
    apply lookup_insert_eq.
Qed.

(** What the loop over a list of names leaves under a name. *)
Lemma import_vars_lookup (env : gmap string string) (ks : list string) :
  forall (penv : gmap string string) (k : string),
    fold_left (import_var env) ks penv !! k
    = match penv !! k with
      | Some old => Some old
      | None =>
          if bool_decide (k ∈ ks) then
            match env !! k with
            | Some v => if setenv_invalid k v then None else Some v
            | None => None
            end
          else None
      end.
Proof.
  induction ks as [|a ks IH]; intros penv k; simpl.
  - destruct (penv !! k); reflexivity.
  - rewrite IH. destruct (decide (k = a)) as [->|Hne].
    + rewrite import_var_same.
      rewrite (bool_decide_eq_true_2 (a ∈ a :: ks)) by left.
      destruct (penv !! a); [reflexivity|].
      destruct (env !! a) as [v|]; [destruct (setenv_invalid a v)|];
        try reflexivity; destruct (bool_decide (a ∈ ks)); reflexivity.
    + rewrite import_var_other by exact Hne.
      destruct (penv !! k); [reflexivity|].
      destruct (decide (k ∈ ks)) as [Hin|Hnot].
      * rewrite !bool_decide_eq_true_2; [reflexivity|right; exact Hin|exact Hin].
      * rewrite !bool_decide_eq_false_2; [reflexivity| |exact Hnot].
        intros Hin. apply elem_of_cons in Hin as [Heq|Hin]; contradiction.
Qed.

Lemma allowlist_setenv_invalid (k v : string) :
  k ∈ allowlist -> setenv_invalid k v = has_byte "000" v.
Proof.
  unfold allowlist. intros Hk.
  apply elem_of_cons in Hk as [->|Hk]; [reflexivity|].
  apply elem_of_cons in Hk as [->|Hk]; [reflexivity|].
  apply elem_of_nil in Hk. contradiction.
Qed.

Lemma import_allowlisted_lookup (env penv : gmap string string) (k : string) :
  import_allowlisted env penv !! k
  = match penv !! k with
    | Some old => Some old
    | None =>
        if bool_decide (k ∈ allowlist) then
          match env !! k with
          | Some v => if has_byte "000" v then None else Some v
          | None => None
          end
        else None
    end.
Proof.
  unfold import_allowlisted. rewrite import_vars_lookup.
  destruct (penv !! k); [reflexivity|].
  destruct (decide (k ∈ allowlist)) as [Hin|Hnot].
  - rewrite bool_decide_eq_true_2 by exact Hin.
    destruct (env !! k) as [v|]; [|reflexivity].
    rewrite (allowlist_setenv_invalid k v Hin). reflexivity.
  - rewrite bool_decide_eq_false_2 by exact Hnot. reflexivity.
Qed.

Lemma import_allowlisted_twice (env penv : gmap string string) :
  import_allowlisted env (import_allowlisted env penv) = import_allowlisted env penv.
Proof.
  apply map_eq. intros k. rewrite (import_allowlisted_lookup env (import_allowlisted _ _)).
  rewrite import_allowlisted_lookup.
  destruct (penv !! k); [reflexivity|].
  destruct (bool_decide (k ∈ allowlist)); [|reflexivity].
  destruct (env !! k) as [v|]; [|reflexivity].
  destruct (has_byte "000" v); reflexivity.
Qed.

Lemma loadDotenvFromFlags_fs (envFile : string) (dotenv : bool) (w : World) :
  fs (snd (loadDotenvFromFlags envFile dotenv w)) = fs w.
Proof.
  by_node envFile w;
    repeat match goal with |- context [if ?b then _ else _] => destruct b end;
    reflexivity.
Qed.

Lemma loadDotenvFromFlags_outcome_fs (envFile : string) (dotenv : bool) (w1 w2 : World) :
  fs w1 = fs w2 ->
  fst (loadDotenvFromFlags envFile dotenv w1) = fst (loadDotenvFromFlags envFile dotenv w2).
Proof.
  intros Hfs. unfold loadDotenvFromFlags. rewrite choose_path_spec.
  unfold os_Stat, godotenv_Read. rewrite Hfs.
  destruct (fs w2 !! requested_file envFile) as [[mode [env|err]|err]|]; simpl;
    repeat match goal with |- context [if ?b then _ else _] => destruct b end;
    reflexivity.
Qed.

Lemma loadDotenvFromFlags_environ_loadable (envFile : string) (dotenv : bool) (w : World) :
  environ (snd (loadDotenvFromFlags envFile dotenv w))
  = match loadable envFile w with
    | Some env => import_allowlisted env (environ w)
    | None => environ w
    end.
Proof.
  unfold loadable. by_node envFile w;
    repeat match goal with |- context [if ?b then _ else _] => destruct b end;
    reflexivity.
Qed.

(** X1: when the requested path exists but cannot be stat'ed, an explicit
    request panics with the error of [os.Stat] and auto-load returns; the
    process state is as before in both cases. *)
Theorem loadDotenvFromFlags_stat_error
    (envFile : string) (dotenv : bool) (w : World) (err : error) :
  fs w !! requested_file envFile = Some (Inaccessible err) ->
  loadDotenvFromFlags envFile dotenv w
  = (if explicit_request envFile dotenv
     then Panicked ("failed to stat " +:+ requested_file envFile +:+ ": " +:+ err)
     else Returned, w).
Proof.
  intros Hnode. unfold loadDotenvFromFlags. rewrite choose_path_spec.
  unfold os_Stat. rewrite Hnode. simpl.
  destruct (explicit_request envFile dotenv); reflexivity.
Qed.

Lemma loadDotenvFromFlags_stat_error_witness :
  loadDotenvFromFlags "" false unsearchable_world = (Returned, unsearchable_world)
  /\ loadDotenvFromFlags "" true unsearchable_world
     = (Panicked "failed to stat .env: stat .env: permission denied", unsearchable_world).
Proof.
  split.
  - apply (loadDotenvFromFlags_stat_error "" false unsearchable_world
             "stat .env: permission denied"). reflexivity.
  - apply (loadDotenvFromFlags_stat_error "" true unsearchable_world
             "stat .env: permission denied"). reflexivity.
Defined.

(** X2: a file that is not world-readable and parses is loaded whatever the
    flags: the loader returns, and afterwards a variable that was set has
    its old value, an allow-listed variable that was unset has the value of
    the file unless that value holds a NUL byte ([os.Setenv] refuses it and
    the error is dropped), and every other variable is unset. *)
Theorem loadDotenvFromFlags_loaded_environ
    (envFile : string) (dotenv : bool) (w : World) mode env (k : string) :
  fs w !! requested_file envFile = Some (RegularFile mode (inl env)) ->
  world_readable mode = false ->
  fst (loadDotenvFromFlags envFile dotenv w) = Returned
  /\ environ (snd (loadDotenvFromFlags envFile dotenv w)) !! k
     = match environ w !! k with
       | Some old => Some old
       | None =>
           if bool_decide (k ∈ allowlist) then
             match env !! k with
             | Some v => if has_byte "000" v then None else Some v
             | None => None
             end
           else None
       end.
Proof.
  intros Hnode Hbit.
  destruct (loadDotenvFromFlags_loads envFile dotenv w mode env Hnode Hbit)
    as [Hret Henv].
  split; [exact Hret|]. rewrite Henv. apply import_allowlisted_lookup.
Qed.

Lemma loadDotenvFromFlags_loaded_environ_witness :
  environ (snd (loadDotenvFromFlags "" false (samples.dotenv_world 384)))
    !! "STRIPE_SECRET_KEY" = Some "sk_test_123"
  /\ environ (snd (loadDotenvFromFlags "" false (samples.dotenv_world 384)))
       !! "STRIPE_DEVICE_NAME" = Some "laptop".
Proof.
  split.
  - rewrite (proj2 (loadDotenvFromFlags_loaded_environ "" false
                      (samples.dotenv_world 384) 384 sample_contents
                      "STRIPE_SECRET_KEY" eq_refl eq_refl)).
    reflexivity.
  - rewrite (proj2 (loadDotenvFromFlags_loaded_environ "" false
                      (samples.dotenv_world 384) 384 sample_contents
                      "STRIPE_DEVICE_NAME" eq_refl eq_refl)).
    reflexivity.
Defined.

(** X3: running the loader again on the state it left gives the same
    outcome and changes no environment variable. *)
Theorem loadDotenvFromFlags_idempotent (envFile : string) (dotenv : bool) (w : World) :
  let w1 := snd (loadDotenvFromFlags envFile dotenv w) in
  fst (loadDotenvFromFlags envFile dotenv w1) = fst (loadDotenvFromFlags envFile dotenv w)
  /\ environ (snd (loadDotenvFromFlags envFile dotenv w1)) = environ w1.
Proof.
  intros w1. subst w1. split.
  - apply loadDotenvFromFlags_outcome_fs, loadDotenvFromFlags_fs.
  - rewrite (loadDotenvFromFlags_environ_loadable envFile dotenv (snd _)).
    unfold loadable at 1. rewrite loadDotenvFromFlags_fs. fold (loadable envFile w).
    rewrite (loadDotenvFromFlags_environ_loadable envFile dotenv w).
    destruct (loadable envFile w) as [env|]; [|reflexivity].
    apply import_allowlisted_twice.
Qed.

(** X4: a panic of the loader leaves the environment, the standard output
    and the files as they were. *)
Theorem loadDotenvFromFlags_panic_leaves_state
    (envFile : string) (dotenv : bool) (w : World) (e : error) :
  fst (loadDotenvFromFlags envFile dotenv w) = Panicked e ->
  environ (snd (loadDotenvFromFlags envFile dotenv w)) = environ w
  /\ stdout (snd (loadDotenvFromFlags envFile dotenv w)) = stdout w
  /\ fs (snd (loadDotenvFromFlags envFile dotenv w)) = fs w.
Proof.
  by_node envFile w; destruct (explicit_request envFile dotenv); simpl;
    intros Hpanic; try discriminate Hpanic; repeat split.
Qed.

Lemma loadDotenvFromFlags_panic_leaves_state_witness :
  environ (snd (loadDotenvFromFlags ".env" true (samples.dotenv_world 420)))
  = environ (samples.dotenv_world 420)
  /\ stdout (snd (loadDotenvFromFlags ".env" true (samples.dotenv_world 420))) = [].
Proof.
  destruct (loadDotenvFromFlags_panic_leaves_state ".env" true (samples.dotenv_world 420)
              ".env file has insecure permissions (world-readable): .env. Run 'chmod 600 .env' to fix this"
              eq_refl) as (Henv & Hout & _).
  split; [exact Henv|exact Hout].
Defined.

(** X5: with neither flag given the loader panics exactly when [.env] is a
    file that is not world-readable and whose read fails. *)
Theorem loadDotenvFromFlags_autoload_panics_iff (w : World) :
  (exists e, fst (loadDotenvFromFlags "" false w) = Panicked e)
  <-> (exists mode err, fs w !! ".env" = Some (RegularFile mode (inr err))
                        /\ world_readable mode = false).
Proof.
  by_node "" w;
    change (requested_file "") with ".env" in *;
    change (explicit_request "" false) with false; simpl; split.
  all: try (intros [e He]; discriminate He).
  all: try (intros (mode' & err' & Hn & Hb); congruence).
  - intros _. exists mode, err. split; [exact Hnode|exact Hbit].
  - intros _. eexists. reflexivity.
Qed.

(** X6: an explicit request returns exactly when the file exists, is not
    world-readable and parses; in every other case it panics. *)
Theorem loadDotenvFromFlags_explicit_returns_iff
    (envFile : string) (dotenv : bool) (w : World) :
  explicit_request envFile dotenv = true ->
  (fst (loadDotenvFromFlags envFile dotenv w) = Returned
   <-> exists mode env,
         fs w !! requested_file envFile = Some (RegularFile mode (inl env))
         /\ world_readable mode = false)
  /\ (fst (loadDotenvFromFlags envFile dotenv w) = Returned
      \/ exists e, fst (loadDotenvFromFlags envFile dotenv w) = Panicked e).
Proof.
  intros Hexplicit. by_node envFile w; rewrite ?Hexplicit; simpl; split.
  all: try (right; eexists; reflexivity).
  all: try (left; reflexivity).
  all: split.
  all: try (intros H; discriminate H).
  all: try (intros (mode' & env' & Hn & Hb); congruence).
  intros _. exists mode, env. split; [reflexivity|exact Hbit].
Qed.

Lemma loadDotenvFromFlags_explicit_returns_iff_witness :
  fst (loadDotenvFromFlags ".env" false (samples.dotenv_world 384)) = Returned
  /\ fst (loadDotenvFromFlags ".env" false (samples.dotenv_world 420)) <> Returned.
Proof.
  split.
  - apply (proj1 (loadDotenvFromFlags_explicit_returns_iff ".env" false
                    (samples.dotenv_world 384) eq_refl)).
    eexists 384%N, _. split; reflexivity.
  - intros Hret.
    apply (proj1 (loadDotenvFromFlags_explicit_returns_iff ".env" false
                    (samples.dotenv_world 420) eq_refl)) in Hret.
    destruct Hret as (mode & env & Hnode & Hbit).
    vm_compute in Hnode. inversion Hnode; subst. discriminate Hbit.
Defined.

(** X7: the loader prints one line, naming the file, when [--dotenv] is set
    and the file was loaded, and nothing in every other case. *)
Theorem loadDotenvFromFlags_stdout (envFile : string) (dotenv : bool) (w : World) :
  stdout (snd (loadDotenvFromFlags envFile dotenv w))
  = (stdout w ++
     match loadable envFile w with
     | Some _ => if dotenv then [loaded_message (requested_file envFile)] else []
     | None => []
     end)%list.
Proof.
  unfold loadable, loaded_message. by_node envFile w;
    repeat match goal with |- context [if ?b then _ else _] => destruct b end;
    simpl; rewrite ?app_nil_r; reflexivity.
Qed.

(** X8: when a path is given, [--dotenv] changes neither the outcome, nor
    the environment, nor the log: the given file is used and the flag only
    adds the printed line. *)
Theorem loadDotenvFromFlags_env_file_precedence (envFile : string) (w : World) :
  envFile <> "" ->
  fst (loadDotenvFromFlags envFile true w) = fst (loadDotenvFromFlags envFile false w)
  /\ environ (snd (loadDotenvFromFlags envFile true w))
     = environ (snd (loadDotenvFromFlags envFile false w))
  /\ logs (snd (loadDotenvFromFlags envFile true w))
     = logs (snd (loadDotenvFromFlags envFile false w)).
Proof.
  intros Hgiven.
  assert (Hexp : forall d, explicit_request envFile d = true).
  { intros d. unfold explicit_request.
    destruct (String.eqb envFile "") eqn:Heq; [|reflexivity].
    apply String.eqb_eq in Heq. contradiction. }
  unfold loadDotenvFromFlags. rewrite !choose_path_spec, !Hexp.
  unfold os_Stat, godotenv_Read.
  destruct (fs w !! requested_file envFile) as [[mode [env|err]|err]|]; simpl;
    repeat match goal with |- context [if ?b then _ else _] => destruct b end;
    repeat split.
Qed.

Lemma loadDotenvFromFlags_env_file_precedence_witness :
  fst (loadDotenvFromFlags "custom.env" true (samples.dotenv_world 384))
  = Panicked "failed to load custom.env: file not found".
Proof.
  rewrite (proj1 (loadDotenvFromFlags_env_file_precedence "custom.env"
                    (samples.dotenv_world 384) ltac:(discriminate))).
  reflexivity.
Defined.

End dotenv_further.

(* ===================================================================== *)
(** * Further properties of the identity command                           *)
(* ===================================================================== *)

Section whoami_further.

Import config whoami whoami_views.

Ltac read_fields :=
  repeat progress
    (rewrite ?member_omitempty, ?member_omitempty_last, ?line_of_optional; simpl).

(** X9: account id, display name, device name, color and the two expiry
    dates are shown under the same name in both renderings, each exactly
    when its getter reports no error and a value that is not empty (for an
    expiry: a time that is not the zero time, as printed); the text prints
    the value as it is, the JSON document as [encoding/json] writes it. *)
Theorem whoami_descriptive_fields `{A : ProfileAPI} `{T : TimeLib}
    (Config : config.Config) (p : Profile) (project_name : string)
    (asJSON showKeys : bool) (now : Time) :
  GetProfile Config = Some p ->
  let r := RunE Config project_name asJSON showKeys now in
  let view (v : string) :=
    if String.eqb v "" then None
    else Some (if asJSON then json_string v else v) in
  let got (g : string * option error) :=
    match g with
    | (v, None) => view v
    | (_, Some _) => None
    end in
  let expiry (g : Time * option error) :=
    match g with
    | (t, None) =>
        if Time_IsZero t then None else view (Time_Format t DateStringFormat)
    | (_, Some _) => None
    end in
  shown "account_id" (snd r) = got (GetAccountID p)
  /\ shown "display_name" (snd r) = view (GetDisplayName p)
  /\ shown "device_name" (snd r) = got (GetDeviceName p)
  /\ shown "color" (snd r) = got (GetColor p)
  /\ shown "test_mode_key_expires_at" (snd r) = expiry (GetExpiresAt p false)
  /\ shown "live_mode_key_expires_at" (snd r) = expiry (GetExpiresAt p true).
Proof.
  intros Hp r view got expiry.
  assert (Hgot : forall g, got g = view (or_empty g)).
  { intros [v [e|]]; reflexivity. }
  assert (Hexpiry : forall g, expiry g = view (expiry_string g)).
  { intros [t [e|]]; simpl; [reflexivity|].
    destruct (Time_IsZero t); reflexivity. }
  rewrite !Hgot, !Hexpiry. clear Hgot Hexpiry.
  subst r view. cbv beta. unfold RunE. rewrite Hp.
  destruct asJSON; simpl.
  - unfold json_Marshal, build_output; simpl. read_fields.
    repeat split;
      match goal with |- _ = (if String.eqb ?v "" then _ else _) =>
        destruct (String.eqb v "") end; reflexivity.
  - unfold human_output, build_output; simpl. read_fields.
    repeat split;
      match goal with |- _ = (if String.eqb ?v "" then _ else _) =>
        destruct (String.eqb v "") end; simpl;
      repeat match goal with |- context [if ?b then _ else _] =>
        destruct b; simpl end; reflexivity.
Qed.

Lemma whoami_descriptive_fields_witness :
  let A := samples.profile_methods samples.test_environ NoBackend in
  let T := samples.date_layout in
  let r := RunE samples.test_config "test" false false (samples.midnight 738000%Z) in
  let j := RunE samples.test_config "test" true false (samples.midnight 738000%Z) in
  shown "device_name" (snd r) = Some "device-from-env"
  /\ shown "test_mode_key_expires_at" (snd r) = Some "2099-01-02"
  /\ shown "test_mode_key_expires_at" (snd j) = Some "2099-01-02".
Proof.
  intros A T r j.
  destruct (whoami_descriptive_fields (A := A) (T := T)
              samples.test_config samples.test_profile "test" false false
              (samples.midnight 738000%Z) ltac:(reflexivity))
    as (_ & _ & Hdevice & _ & Hexp & _).
  destruct (whoami_descriptive_fields (A := A) (T := T)
              samples.test_config samples.test_profile "test" true false
              (samples.midnight 738000%Z) ltac:(reflexivity))
    as (_ & _ & _ & _ & Hjson & _).
  split; [exact Hdevice|]. split; [exact Hexp|exact Hjson].
Defined.



(** X11: the warning is printed exactly in the text rendering, when the
    test key has an expiry that is not the zero time, and the clock is more
    than 24 hours past the instant read back from the printed form of that
    expiry; the expiry of the live key plays no part. *)
Theorem whoami_warning `{A : ProfileAPI} `{T : TimeLib}
    (Config : config.Config) (p : Profile) (project_name : string)
    (asJSON showKeys : bool) (now : Time) :
  GetProfile Config = Some p ->
  warned (snd (RunE Config project_name asJSON showKeys now)) = true
  <-> asJSON = false
      /\ snd (GetExpiresAt p false) = None
      /\ Time_IsZero (fst (GetExpiresAt p false)) = false
      /\ Time_Format (fst (GetExpiresAt p false)) DateStringFormat <> ""
      /\ exists exp,
           time_Parse DateStringFormat
             (Time_Format (fst (GetExpiresAt p false)) DateStringFormat)
           = (exp, None)
           /\ (exp + 24 * Hour < now)%Z.
Proof.
  intros Hp. unfold RunE. rewrite Hp.
  destruct asJSON; cbn [snd warned].
  { split; [discriminate|]. intros [H _]. discriminate H. }
  rewrite human_output_warning. cbn [TestKeyExp build_output].
  unfold expiry_string, parsed_expiry, IsStale, Time_After, Time_Add.
  destruct (GetExpiresAt p false) as [t [e|]]; simpl.
  { split; [discriminate|]. intros (_ & H & _). discriminate H. }
  destruct (Time_IsZero t); simpl.
  { split; [discriminate|]. intros (_ & _ & H & _). discriminate H. }
  destruct (String.eqb (Time_Format t DateStringFormat) "") eqn:Hempty.
  { apply String.eqb_eq in Hempty.
    split; [discriminate|]. intros (_ & _ & _ & H & _). contradiction. }
  apply String.eqb_neq in Hempty.
  destruct (time_Parse DateStringFormat (Time_Format t DateStringFormat))
    as [exp [e|]].
  { split; [discriminate|]. intros (_ & _ & _ & _ & exp' & H & _). discriminate H. }
  rewrite Z.ltb_lt. split.
  - intros Hlate. repeat split; [exact Hempty|]. exists exp. split; [reflexivity|exact Hlate].
  - intros (_ & _ & _ & _ & exp' & Hparse & Hlate). inversion Hparse; subst. exact Hlate.
Qed.

Lemma whoami_warning_witness :
  let A := samples.profile_methods samples.test_environ NoBackend in
  let T := samples.date_layout in
  warned (snd (RunE samples.test_config "test" false true
                 (samples.time_of_date {| year := 2099; month := 1; day := 3 |} + Hour)%Z))
  = true.
Proof.
  intros A T.
  apply (whoami_warning (A := A) (T := T) samples.test_config samples.test_profile
           "test" false true
           (samples.time_of_date {| year := 2099; month := 1; day := 3 |} + Hour)%Z
           ltac:(reflexivity)).
  split; [reflexivity|]. split; [reflexivity|]. split; [reflexivity|].
  split; [discriminate|].
  exists (samples.time_of_date {| year := 2099; month := 1; day := 2 |}).
  split; [reflexivity|]. vm_compute. reflexivity.
Defined.

(** X12: the path of the profiles file is shown by the JSON document only,
    when it is not empty; the project name is always shown, as
    [project_name] in the document and as [project-name] in the text.  The
    document shows both as [encoding/json] writes them. *)
Theorem whoami_rendering_differences `{A : ProfileAPI} `{T : TimeLib}
    (Config : config.Config) (p : Profile) (project_name : string)
    (showKeys : bool) (now : Time) :
  GetProfile Config = Some p ->
  let text := snd (RunE Config project_name false showKeys now) in
  let json := snd (RunE Config project_name true showKeys now) in
  shown "profiles_file" text = None
  /\ shown "profiles_file" json
     = (if String.eqb (config.ProfilesFile Config) "" then None
        else Some (json_string (config.ProfilesFile Config)))
  /\ shown "project_name" json = Some (json_string project_name)
  /\ shown "project-name" text = Some project_name
  /\ shown "project-name" json = None
  /\ shown "project_name" text = None.
Proof.
  intros Hp text json. subst text json. unfold RunE. rewrite Hp. simpl.
  unfold human_output, json_Marshal, build_output; simpl. read_fields.
  repeat match goal with |- context [String.eqb ?v ""] =>
    destruct (String.eqb v ""); simpl end;
  repeat match goal with |- context [if ?b then _ else _] =>
    destruct b; simpl end; repeat split.
Qed.

Lemma whoami_rendering_differences_witness :
  let A := samples.profile_methods samples.test_environ NoBackend in
  let T := samples.date_layout in
  shown "profiles_file"
    (snd (RunE samples.test_config "test" true false (samples.midnight 738000%Z)))
  = Some "/tmp/config.toml"
  /\ shown "profiles_file"
       (snd (RunE samples.test_config "test" false false (samples.midnight 738000%Z)))
     = None.
Proof.
  intros A T.
  destruct (whoami_rendering_differences (A := A) (T := T)
              samples.test_config samples.test_profile "test" false
              (samples.midnight 738000%Z) ltac:(reflexivity))
    as (Htext & Hjson & _).
  split; [exact Hjson|exact Htext].
Defined.

(** X13: no name is shown twice: the members of the JSON document have
    distinct names, and so have the labelled lines of the text. *)
Theorem whoami_names_distinct `{A : ProfileAPI} `{T : TimeLib}
    (Config : config.Config) (project_name : string)
    (asJSON showKeys : bool) (now : Time) :
  NoDup (names (snd (RunE Config project_name asJSON showKeys now))).
Proof.
  unfold RunE. destruct (GetProfile Config) as [p|]; [|apply NoDup_nil_2].
  destruct asJSON; simpl.
  - unfold json_Marshal, omitempty.
    repeat match goal with |- context [String.eqb ?v ""] =>
      destruct (String.eqb v "") end;
      apply bool_decide_unpack with (dec := NoDup_dec _); vm_compute; reflexivity.
  - unfold human_output, optional_line.
    repeat match goal with |- context [if ?b then _ else _] =>
      destruct b end;
      apply bool_decide_unpack with (dec := NoDup_dec _); vm_compute; reflexivity.
Qed.

(** X19: without [--show-keys] no chunk of the printed text begins with
    [test_mode_api_key: ] or [live_mode_api_key: ], whatever the values of
    the other fields are. *)
Theorem whoami_text_without_key_lines `{A : ProfileAPI} `{T : TimeLib}
    (out : whoamiOutput) (now : Time) :
  forallb no_key_label (human_output out false now) = true.
Proof.
  unfold human_output, optional_line.
  repeat match goal with |- context [if ?b then _ else _] =>
    destruct b end; reflexivity.
Qed.

End whoami_further.

(* ===================================================================== *)
(** * Further properties of the key-based login                            *)
(* ===================================================================== *)

Section login_further.

Import config login login_views.

(** X14: the login fails only on a key the validator rejects or on a failed
    write, with that error: the host name lookup, the display name request
    and the verification request never make it fail. *)
Theorem LoginWithAPIKey_result
    `{E : LoginEnv} {Store : Type} `{S : ProfileStore Store}
    (apiBaseURL apiKey : string) (st : State Store) :
  fst (LoginWithAPIKey apiBaseURL apiKey st)
  = match validators_APIKey (strings_TrimSpace apiKey) with
    | Some err => Some err
    | None =>
        fst (Profile_CreateProfile
               (updated_profile apiBaseURL (strings_TrimSpace apiKey) (Profile_ (cfg st)))
               (store st))
    end.
Proof.
  unfold LoginWithAPIKey.
  destruct (validators_APIKey (strings_TrimSpace apiKey)); [reflexivity|].
  destruct (Profile_CreateProfile _ (store st)) as [[err|] store']; [reflexivity|].
  destruct (SuccessMessage apiBaseURL (strings_TrimSpace apiKey)) as [msg [err|]];
    reflexivity.
Qed.

(** X15: a login that fails prints nothing.  When the key was rejected the
    configuration and the store are as before; when the write failed the
    profile in memory already carries the new key, display name and device
    name. *)
Theorem LoginWithAPIKey_failure
    `{E : LoginEnv} {Store : Type} `{S : ProfileStore Store}
    (apiBaseURL apiKey : string) (st : State Store) :
  fst (LoginWithAPIKey apiBaseURL apiKey st) <> None ->
  stdout (snd (LoginWithAPIKey apiBaseURL apiKey st)) = stdout st
  /\ cfg (snd (LoginWithAPIKey apiBaseURL apiKey st))
     = match validators_APIKey (strings_TrimSpace apiKey) with
       | Some _ => cfg st
       | None =>
           set_Profile
             (updated_profile apiBaseURL (strings_TrimSpace apiKey) (Profile_ (cfg st)))
             (cfg st)
       end
  /\ (validators_APIKey (strings_TrimSpace apiKey) <> None ->
      store (snd (LoginWithAPIKey apiBaseURL apiKey st)) = store st).
Proof.
  unfold LoginWithAPIKey.
  destruct (validators_APIKey (strings_TrimSpace apiKey)) as [bad|].
  - intros _. repeat split.
  - destruct (Profile_CreateProfile _ (store st)) as [[err|] store'].
    + intros _. split; [reflexivity|]. split; [reflexivity|].
      intros H. contradiction.
    + destruct (SuccessMessage apiBaseURL (strings_TrimSpace apiKey)) as [msg [err|]];
        intros H; contradiction.
Qed.

Lemma LoginWithAPIKey_failure_witness :
  let rejected := LoginWithAPIKey (E := samples.flaky_service) (S := recording_store)
                    "https://api.stripe.com" "pk_test_1234567890" fresh_login in
  let unwritten := LoginWithAPIKey (E := samples.flaky_service) (S := full_disk)
                     "https://api.stripe.com" "sk_test_1234567890" fresh_login in
  (stdout (snd rejected) = [] /\ cfg (snd rejected) = samples.login_config)
  /\ (stdout (snd unwritten) = []
      /\ TestModeAPIKey (Profile_ (cfg (snd unwritten))) = "sk_test_1234567890").
Proof.
  intros rejected unwritten. split.
  - destruct (LoginWithAPIKey_failure (E := samples.flaky_service) (S := recording_store)
                "https://api.stripe.com" "pk_test_1234567890" fresh_login
                ltac:(discriminate)) as (Hout & Hcfg & _).
    split; [exact Hout|exact Hcfg].
  - destruct (LoginWithAPIKey_failure (E := samples.flaky_service) (S := full_disk)
                "https://api.stripe.com" "sk_test_1234567890" fresh_login
                ltac:(discriminate)) as (Hout & Hcfg & _).
    split; [exact Hout|]. fold unwritten in Hcfg. rewrite Hcfg. reflexivity.
Defined.

(** X16: whatever its result, the login leaves the name of the profile, the
    account id, the production key, the two expiry dates and the color
    preference of the profile, and the other fields of the configuration,
    as they were. *)
Theorem LoginWithAPIKey_frame
    `{E : LoginEnv} {Store : Type} `{S : ProfileStore Store}
    (apiBaseURL apiKey : string) (st : State Store) :
  let p := Profile_ (cfg st) in
  let c' := cfg (snd (LoginWithAPIKey apiBaseURL apiKey st)) in
  ProfileName (Profile_ c') = ProfileName p
  /\ config.AccountID (Profile_ c') = config.AccountID p
  /\ ProductionKey (Profile_ c') = ProductionKey p
  /\ SandboxKeyExpiresAt (Profile_ c') = SandboxKeyExpiresAt p
  /\ ProductionKeyExpiresAt (Profile_ c') = ProductionKeyExpiresAt p
  /\ ColorPref (Profile_ c') = ColorPref p
  /\ config.Color c' = config.Color (cfg st)
  /\ LogLevel c' = LogLevel (cfg st)
  /\ config.ProfilesFile c' = config.ProfilesFile (cfg st).
Proof.
  intros p c'. subst p c'. unfold LoginWithAPIKey.
  destruct (validators_APIKey (strings_TrimSpace apiKey)); [repeat split|].
  assert (Hkept : forall k q,
             let q' := updated_profile apiBaseURL k q in
             ProfileName q' = ProfileName q
             /\ config.AccountID q' = config.AccountID q
             /\ ProductionKey q' = ProductionKey q
             /\ SandboxKeyExpiresAt q' = SandboxKeyExpiresAt q
             /\ ProductionKeyExpiresAt q' = ProductionKeyExpiresAt q
             /\ ColorPref q' = ColorPref q).
  { intros k q. unfold updated_profile, ensure_device_name. simpl.
    destruct (String.eqb (strings_TrimSpace (DeviceName q)) "");
      [destruct os_Hostname as [h [e|]]|]; repeat split. }
  destruct (Hkept (strings_TrimSpace apiKey) (Profile_ (cfg st)))
    as (H1 & H2 & H3 & H4 & H5 & H6).
  destruct (Profile_CreateProfile _ (store st)) as [[err|] store'];
    [|destruct (SuccessMessage apiBaseURL (strings_TrimSpace apiKey)) as [msg [err|]]];
    simpl; repeat split; assumption.
Qed.

(** X17: once the key is accepted, the profile in memory has the trimmed
    key as test-mode key and what the display name request returned, error
    or not, as display name; a device name that is not blank is kept, a
    blank one becomes the host name, or ["unknown"] when the host name
    cannot be read. *)
Theorem LoginWithAPIKey_profile_after
    `{E : LoginEnv} {Store : Type} `{S : ProfileStore Store}
    (apiBaseURL apiKey : string) (st : State Store) :
  validators_APIKey (strings_TrimSpace apiKey) = None ->
  let p := Profile_ (cfg st) in
  let p' := Profile_ (cfg (snd (LoginWithAPIKey apiBaseURL apiKey st))) in
  TestModeAPIKey p' = strings_TrimSpace apiKey
  /\ config.DisplayName p' = fst (getDisplayName apiBaseURL (strings_TrimSpace apiKey))
  /\ config.DeviceName p'
     = if String.eqb (strings_TrimSpace (config.DeviceName p)) ""
       then match os_Hostname with
            | (hostName, None) => hostName
            | (_, Some _) => "unknown"
            end
       else config.DeviceName p.
Proof.
  intros Hvalid p p'. subst p p'. unfold LoginWithAPIKey. rewrite Hvalid.
  assert (Hset : forall q,
             let q' := updated_profile apiBaseURL (strings_TrimSpace apiKey) q in
             TestModeAPIKey q' = strings_TrimSpace apiKey
             /\ config.DisplayName q'
                = fst (getDisplayName apiBaseURL (strings_TrimSpace apiKey))
             /\ config.DeviceName q'
                = if String.eqb (strings_TrimSpace (config.DeviceName q)) ""
                  then match os_Hostname with
                       | (hostName, None) => hostName
                       | (_, Some _) => "unknown"
                       end
                  else config.DeviceName q).
  { intros q. unfold updated_profile, ensure_device_name. simpl.
    destruct (String.eqb (strings_TrimSpace (config.DeviceName q)) "");
      [destruct os_Hostname as [h [e|]]|]; repeat split. }
  destruct (Hset (Profile_ (cfg st))) as (H1 & H2 & H3).
  destruct (Profile_CreateProfile _ (store st)) as [[err|] store'];
    [|destruct (SuccessMessage apiBaseURL (strings_TrimSpace apiKey)) as [msg [err|]]];
    simpl; repeat split; assumption.
Qed.

Lemma LoginWithAPIKey_profile_after_witness :
  let named := LoginWithAPIKey (E := samples.flaky_service) (S := recording_store)
                 "https://api.stripe.com" " sk_test_1234567890 " fresh_login in
  let unnamed := LoginWithAPIKey (E := samples.flaky_service) (S := full_disk)
                   "https://api.stripe.com" "sk_test_1234567890" unnamed_login in
  (TestModeAPIKey (Profile_ (cfg (snd named))) = "sk_test_1234567890"
   /\ config.DeviceName (Profile_ (cfg (snd named))) = "st-testing")
  /\ config.DeviceName (Profile_ (cfg (snd unnamed))) = "build-host".
Proof.
  intros named unnamed. split.
  - destruct (LoginWithAPIKey_profile_after (E := samples.flaky_service)
                (S := recording_store)
                "https://api.stripe.com" " sk_test_1234567890 " fresh_login
                ltac:(reflexivity)) as (Hkey & _ & Hdevice).
    split; [exact Hkey|exact Hdevice].
  - destruct (LoginWithAPIKey_profile_after (E := samples.flaky_service)
                (S := full_disk)
                "https://api.stripe.com" "sk_test_1234567890" unnamed_login
                ltac:(reflexivity)) as (_ & _ & Hdevice).
    exact Hdevice.
Defined.

(** X18: white space around the key does not matter: where trimming twice
    is trimming once, the login with the trimmed key is the login with the
    key as given. *)
Theorem LoginWithAPIKey_trims_key
    `{E : LoginEnv} {Store : Type} `{S : ProfileStore Store}
    (apiBaseURL apiKey : string) (st : State Store) :
  strings_TrimSpace (strings_TrimSpace apiKey) = strings_TrimSpace apiKey ->
  LoginWithAPIKey apiBaseURL (strings_TrimSpace apiKey) st
  = LoginWithAPIKey apiBaseURL apiKey st.
Proof.
  intros Hidem. unfold LoginWithAPIKey. rewrite Hidem. reflexivity.
Qed.

Lemma LoginWithAPIKey_trims_key_witness :
  LoginWithAPIKey (E := samples.flaky_service) (S := recording_store)
    "https://api.stripe.com" "sk_test_1234567890" fresh_login
  = LoginWithAPIKey (E := samples.flaky_service) (S := recording_store)
      "https://api.stripe.com" "  sk_test_1234567890
" fresh_login.
Proof.
  apply (LoginWithAPIKey_trims_key (E := samples.flaky_service) (S := recording_store)
           "https://api.stripe.com" "  sk_test_1234567890
" fresh_login).
  reflexivity.
Defined.

End login_further.
